(** * tele-triage: the dispatch worker pool of [application.py]

    A shallow embedding of the request handlers ([sms], [triaging],
    [verdict]), of [get_triage_instructions] and of the worker loop
    [do_work], followed by the properties of the hand-off between them.

    Python objects are shared by reference: a user object lives in a heap
    and the two deques, the user model repository and a worker's local
    variable [user] all hold its address. *)

From stdpp Require Import base option list strings gmap.
From Stdlib Require Import ZArith Lia.

Set Default Proof Using "Type".

(** ** Python values, exceptions and results *)

Inductive pyval : Type :=
  | VNone
  | VBool (b : bool)
  | VStr (s : string).

#[global] Instance pyval_eq_dec : EqDecision pyval.
Proof. solve_decision. Defined.

(** Truth value of an object, as tested by [if user.values['get_hospital']:]. *)
Definition truthy (v : pyval) : bool :=
  match v with
  | VNone => false
  | VBool b => b
  | VStr s => negb (String.eqb s "")
  end.

(** [x is None] *)
Definition is_None (v : pyval) : bool :=
  match v with VNone => true | _ => false end.

(** A value coming from [request.values.get(key, None)]: a string or [None]. *)
Definition of_form (o : option string) : pyval :=
  match o with Some s => VStr s | None => VNone end.

(** The exceptions the handlers and the worker can meet.  [ValueError] and
    [KeyError] stand for every instance of these classes (what the two
    [except] clauses of [do_work] catch); [IndexError], [TypeError] and
    [OtherError] are instances of neither. *)
Inductive exn : Type :=
  | ValueError (msg : string)
  | KeyError (key : string)
  | IndexError (msg : string)
  | TypeError (msg : string)
  | OtherError (msg : string).

Definition is_ValueError (e : exn) : bool :=
  match e with ValueError _ => true | _ => false end.

Definition is_KeyError (e : exn) : bool :=
  match e with KeyError _ => true | _ => false end.

(** [str(e)] *)
Definition exn_str (e : exn) : string :=
  match e with
  | ValueError m | IndexError m | TypeError m | OtherError m => m
  | KeyError k => "'" +:+ k +:+ "'"
  end.

Inductive result (A : Type) : Type :=
  | Ok (a : A)
  | Raise (e : exn).
Arguments Ok {A} a.
Arguments Raise {A} e.

Definition rbind {A B} (r : result A) (k : A -> result B) : result B :=
  match r with Ok a => k a | Raise e => Raise e end.

#[global] Instance result_bind : MBind result := fun A B k r => rbind r k.
#[global] Instance result_ret : MRet result := @Ok.

(** [d[key]] on a dict with string keys. *)
Definition getitem {V} (d : gmap string V) (key : string) : result V :=
  match d !! key with
  | Some v => Ok v
  | None => Raise (KeyError key)
  end.

Definition nl : string := String (Ascii.ascii_of_nat 10) EmptyString.

(** ** [collections.deque] *)

Module deque.
Definition append {A} (q : list A) (x : A) : list A := q ++ [x].
Definition appendleft {A} (q : list A) (x : A) : list A := x :: q.
Definition popleft {A} (q : list A) : result (A * list A) :=
  match q with
  | [] => Raise (IndexError "pop from an empty deque")
  | x :: q' => Ok (x, q')
  end.
End deque.

(** ** [get_triage_instructions] *)

Definition triage_responses : list (string * (string * bool)) :=
  [ ("home", ("Stay at home, rest, and take medication as necessary", false));
    ("LEVEL 1", ("Please seek Triage Level 1 assistance; you will be provided with a list of nearby hospitals/clinics:", true));
    ("LEVEL 2", ("Please seek Triage Level 2 assistance; you will be provided with a list of nearby hospitals/clinics:", true));
    ("LEVEL 3", ("Please seek Triage Level 3 assistance; you will be provided with a list of nearby hospitals/clinics:", true));
    ("LEVEL 4", ("Please seek Triage Level 4 assistance; you will be provided with a list of nearby hospitals/clinics:", true));
    ("gettest", ("Please get tested for COVID-19; you will be provided with a list of nearby testing locations:", false));
    ("checkinlater8", ("Please stay put and text back in 8 hours", false));
    ("checkinlater16", ("Please stay put and text back in 16 hours", false));
    ("checkinlater24", ("Please stay put and text back in 24 hours", false)) ].

(** Lookup in a dict literal (the keys of [triage_responses] are distinct). *)
Fixpoint dict_get {V} (d : list (string * V)) (key : string) : option V :=
  match d with
  | [] => None
  | (k, v) :: d' => if String.eqb k key then Some v else dict_get d' key
  end.

(** [triage_code in triage_responses]; the code is [None] when the form has
    no field [triages]. *)
Definition known_code (triage_code : option string) : bool :=
  match triage_code with
  | Some c => bool_decide (is_Some (dict_get triage_responses c))
  | None => false
  end.

Definition get_triage_instructions (triage_code : option string) : pyval * pyval :=
  match triage_code with
  | Some c =>
      match dict_get triage_responses c with
      | Some (text, flag) => (VStr text, VBool flag)
      | None => (VNone, VNone)
      end
  | None => (VNone, VNone)
  end.

(** ** The follow-up pipeline of [do_work] (one pass of the inner [try]) *)

(** A facility record as the worker reads it: [hosp["attributes"]["NAME"]]
    and so on; the attribute values are taken as already rendered text. *)
Definition hospital : Type := gmap string (gmap string string).

(** The weights returned by [get_match_weights] are opaque to this file. *)
Definition weights : Type := list Z.

(** The external collaborators as they answer during one pass: the two
    functions of [triage], the one of [matching.match_users] and Twilio's
    [client.messages.create].  Each may raise. *)
Record Ext : Type := {
  get_hospital_records_within_distance : pyval -> Z -> result (list hospital);
  get_match_weights : pyval -> pyval -> list hospital -> result weights;
  make_hospital_choice : list hospital -> weights -> result (list hospital);
  messages_create : string -> pyval -> pyval -> result unit
}.

(** What the file reads from [configuration.yml]. *)
Record Config : Type := {
  twilio_number : string;
  zip_code_radius : Z
}.

(** [instructions += s] *)
Definition str_iadd (v : pyval) (s : string) : result pyval :=
  match v with
  | VStr t => Ok (VStr (t +:+ s))
  | _ => Raise (TypeError "unsupported operand type(s) for +=")
  end.

Definition hosp_attr (hosp : hospital) (key : string) : result string :=
  (a ← getitem hosp "attributes"; getitem a key).

(** The text appended for one selected facility. *)
Definition hospital_lines (hosp : hospital) : result string :=
  (name ← hosp_attr hosp "NAME";
   address ← hosp_attr hosp "ADDRESS";
   city ← hosp_attr hosp "CITY";
   state ← hosp_attr hosp "STATE";
   zip ← hosp_attr hosp "ZIP";
   Ok ((name +:+ " " +:+ nl +:+ " ") +:+
       (address +:+ " " +:+ nl +:+ " ") +:+
       (city +:+ ", ") +:+
       (state +:+ "  ") +:+
       (zip +:+ nl +:+ nl))).

Fixpoint append_hospitals (instructions : pyval) (selected : list hospital)
  : result pyval :=
  match selected with
  | [] => Ok instructions
  | hosp :: rest =>
      (text ← hospital_lines hosp;
       instructions' ← str_iadd instructions text;
       append_hospitals instructions' rest)
  end.

Definition choose_header : string :=
  nl +:+ nl +:+ "Please choose one of the following care centers:" +:+ nl +:+ " ".

(** Lines 139-154: the body of the inner [try]; returns the message body
    and its target when [client.messages.create] returned. *)
Definition pipeline (cfg : Config) (E : Ext) (values : gmap string pyval)
  : result (pyval * pyval) :=
  (instructions ← getitem values "triage_instructions";
   get_hospital ← getitem values "get_hospital";
   instructions ←
     (if truthy get_hospital then
        user_zip_code ← getitem values "zip_code";
        hospitals ← get_hospital_records_within_distance E user_zip_code
                       (zip_code_radius cfg);
        triage_code ← getitem values "triage_code";
        weights ← get_match_weights E user_zip_code triage_code hospitals;
        selected_hospitals ← make_hospital_choice E hospitals weights;
        instructions ← str_iadd instructions choose_header;
        append_hospitals instructions selected_hospitals
      else Ok instructions);
   to ← getitem values "phone_number";
   _ ← messages_create E (twilio_number cfg) instructions to;
   Ok (instructions, to)).

(** ** The shared state of the process *)

(** A user object: [user.uuid] (the phone number) and [user.values]. *)
Record User : Type := {
  uuid : option string;
  values : gmap string pyval
}.

(** Where a worker thread stands in [do_work]. *)
Inductive wpc : Type :=
  | WTop                 (* line 134, about to enter [with work_available_condition] *)
  | WLocked              (* line 136, lock held, about to [popleft] *)
  | WPipe (user : nat)   (* line 138, lock held, at the top of the inner loop *)
  | WSleep (user : nat)  (* line 158, lock held, in [time.sleep(1)] *)
  | WWait                (* line 163, in [wait()]: lock released, not notified *)
  | WNotified            (* line 163, in [wait()]: notified, re-acquiring the lock *)
  | WResumed.            (* [wait()] has returned, lock held, leaving the [with] *)

#[global] Instance wpc_eq_dec : EqDecision wpc.
Proof. solve_decision. Defined.

(** The two keys the handlers keep in a client's Flask session; [None]
    stands for a key that is absent or holds [None]. *)
Record Session : Type := {
  user_uuid : option string;
  user_vals : option (gmap string pyval)
}.

Definition empty_session : Session := {| user_uuid := None; user_vals := None |}.

(** What the process does to the outside world. *)
Inductive event : Type :=
  | EStderr (line : string)                  (* [print(..., file=sys.stderr)] *)
  | ESleep (seconds : nat)                   (* [time.sleep] *)
  | ESent (from_ : string) (body to : pyval). (* [client.messages.create] returned *)

Record State : Type := {
  config : Config;
  heap : list User;                  (* user objects, by address *)
  users : gmap (option string) nat;  (* [user_model_repo.users] *)
  user_queue : list nat;
  to_respond_queue : list nat;
  lock : option nat;                 (* the worker owning [lock], if any *)
  waiters : list nat;                (* workers inside [wait()], oldest first *)
  pcs : list wpc;                    (* one entry per worker thread *)
  sessions : gmap nat Session;
  trace : list event
}.

Definition set_heap (f : list User -> list User) (s : State) : State :=
  {| config := config s; heap := f (heap s); users := users s;
     user_queue := user_queue s; to_respond_queue := to_respond_queue s;
     lock := lock s; waiters := waiters s; pcs := pcs s;
     sessions := sessions s; trace := trace s |}.

Definition set_users (f : gmap (option string) nat -> gmap (option string) nat)
  (s : State) : State :=
  {| config := config s; heap := heap s; users := f (users s);
     user_queue := user_queue s; to_respond_queue := to_respond_queue s;
     lock := lock s; waiters := waiters s; pcs := pcs s;
     sessions := sessions s; trace := trace s |}.

Definition set_user_queue (f : list nat -> list nat) (s : State) : State :=
  {| config := config s; heap := heap s; users := users s;
     user_queue := f (user_queue s); to_respond_queue := to_respond_queue s;
     lock := lock s; waiters := waiters s; pcs := pcs s;
     sessions := sessions s; trace := trace s |}.

Definition set_to_respond_queue (f : list nat -> list nat) (s : State) : State :=
  {| config := config s; heap := heap s; users := users s;
     user_queue := user_queue s; to_respond_queue := f (to_respond_queue s);
     lock := lock s; waiters := waiters s; pcs := pcs s;
     sessions := sessions s; trace := trace s |}.

Definition set_lock (o : option nat) (s : State) : State :=
  {| config := config s; heap := heap s; users := users s;
     user_queue := user_queue s; to_respond_queue := to_respond_queue s;
     lock := o; waiters := waiters s; pcs := pcs s;
     sessions := sessions s; trace := trace s |}.

Definition set_waiters (f : list nat -> list nat) (s : State) : State :=
  {| config := config s; heap := heap s; users := users s;
     user_queue := user_queue s; to_respond_queue := to_respond_queue s;
     lock := lock s; waiters := f (waiters s); pcs := pcs s;
     sessions := sessions s; trace := trace s |}.

Definition set_pc (t : nat) (pc : wpc) (s : State) : State :=
  {| config := config s; heap := heap s; users := users s;
     user_queue := user_queue s; to_respond_queue := to_respond_queue s;
     lock := lock s; waiters := waiters s; pcs := <[t := pc]> (pcs s);
     sessions := sessions s; trace := trace s |}.

Definition set_session (c : nat) (x : Session) (s : State) : State :=
  {| config := config s; heap := heap s; users := users s;
     user_queue := user_queue s; to_respond_queue := to_respond_queue s;
     lock := lock s; waiters := waiters s; pcs := pcs s;
     sessions := <[c := x]> (sessions s); trace := trace s |}.

Definition emit (evs : list event) (s : State) : State :=
  {| config := config s; heap := heap s; users := users s;
     user_queue := user_queue s; to_respond_queue := to_respond_queue s;
     lock := lock s; waiters := waiters s; pcs := pcs s;
     sessions := sessions s; trace := trace s ++ evs |}.

(** The process as [__main__] starts it: [n] worker threads (the source
    starts two), nothing queued, the lock free. *)
Definition init_state (cfg : Config) (n : nat) : State :=
  {| config := cfg; heap := []; users := ∅; user_queue := [];
     to_respond_queue := []; lock := None; waiters := [];
     pcs := replicate n WTop; sessions := ∅; trace := [] |}.

(** ** [threading.Condition] over the shared lock *)

(** [work_available_condition.notify()]: wakes the oldest waiter, if any. *)
Definition notify (s : State) : State :=
  match waiters s with
  | [] => s
  | t :: ws => set_pc t WNotified (set_waiters (fun _ => ws) s)
  end.

(** [work_available_condition.wait()] up to the point where the calling
    worker [t] is suspended: the lock is released and [t] joins the waiters. *)
Definition wait (t : nat) (s : State) : State :=
  set_pc t WWait (set_waiters (fun ws => ws ++ [t]) (set_lock None s)).

(** ** The request handlers *)

(** A handler runs on the state and returns, raises (Flask answers 500),
    or cannot enter a [with work_available_condition] block yet. *)
Inductive outcome (A : Type) : Type :=
  | Done (a : A) (s : State)
  | Raised (e : exn) (s : State)
  | Blocked.
Arguments Done {A} a s.
Arguments Raised {A} e s.
Arguments Blocked {A}.

Definition M (A : Type) : Type := State -> outcome A.

#[global] Instance M_ret : MRet M := fun A a s => Done a s.
#[global] Instance M_bind : MBind M := fun A B k m s =>
  match m s with
  | Done a s' => k a s'
  | Raised e s' => Raised e s'
  | Blocked => Blocked
  end.

Definition get : M State := fun s => Done s s.
Definition modify (f : State -> State) : M unit := fun s => Done tt (f s).
Definition raise {A} (e : exn) : M A := fun s => Raised e s.
Definition lift {A} (r : result A) : M A :=
  fun s => match r with Ok a => Done a s | Raise e => Raised e s end.

(** Reading an attribute of the object at address [l]. *)
Definition deref (l : nat) : M User :=
  fun s => match heap s !! l with
           | Some u => Done u s
           | None => Raised (OtherError "no object at this address") s
           end.

(** [user.values[key] = v] on the object at address [l]. *)
Definition values_setitem (l : nat) (key : string) (v : pyval) : M unit :=
  u ← deref l;
  modify (set_heap (fun h => <[l := {| uuid := uuid u; values := <[key := v]> (values u) |}]> h)).

(** [user_model_repo.users[number]] *)
Definition users_getitem (number : option string) : M nat :=
  fun s => match users s !! number with
           | Some l => Done l s
           | None => Raised (KeyError (default "None" number)) s
           end.

(** Modelled from the spec: [UserModelRepository.get_or_create] of
    [models.py], which is not among the sources.  The record of an identity
    is the one the repository holds; for a new identity a record with that
    identity and an empty attribute map is created and stored. *)
Definition get_or_create (number : option string) : M nat :=
  fun s => match users s !! number with
           | Some l => Done l s
           | None =>
               let l := length (heap s) in
               Done l (set_users (fun m => <[number := l]> m)
                         (set_heap (fun h => h ++ [{| uuid := number; values := ∅ |}]) s))
           end.

(** Modelled from the spec: [UserModelRepository.delete] of [models.py],
    which is not among the sources: the identity's record is discarded from
    the repository (and nothing happens when there is none). *)
Definition users_delete (number : option string) : M unit :=
  modify (set_users (fun m => delete number m)).

Inductive page : Type :=
  | index_html
  | resources_html
  | triage_html (values : option (gmap string pyval)) (phonenumber : option string)
  | no_users_triage_html
  | verdict_html
  | twiml (message : string).

Definition session_of (s : State) (c : nat) : Session :=
  default empty_session (sessions s !! c).

(** [str.upper] and [str.strip] on ASCII text. *)
Definition upper_ascii (c : Ascii.ascii) : Ascii.ascii :=
  let n := Ascii.nat_of_ascii c in
  if (97 <=? n)%nat && (n <=? 122)%nat then Ascii.ascii_of_nat (n - 32) else c.

Fixpoint upper (s : string) : string :=
  match s with
  | EmptyString => EmptyString
  | String c r => String (upper_ascii c) (upper r)
  end.

Definition is_space (c : Ascii.ascii) : bool :=
  let n := Ascii.nat_of_ascii c in
  ((9 <=? n)%nat && (n <=? 13)%nat) || ((28 <=? n)%nat && (n <=? 32)%nat).

Fixpoint lstrip (s : string) : string :=
  match s with
  | EmptyString => EmptyString
  | String c r => if is_space c then lstrip r else s
  end.

Fixpoint rstrip (s : string) : string :=
  match s with
  | EmptyString => EmptyString
  | String c r =>
      match rstrip r with
      | EmptyString => if is_space c then EmptyString else String c EmptyString
      | r' => String c r'
      end
  end.

Definition strip (s : string) : string := rstrip (lstrip s).

(** [user_model_repo.get_response] belongs to the intake engine of
    [models.py]; the handler [sms] takes it as it is: from the phone number
    and the message it may create and update user objects and answers
    [(response, cont)]. *)
Definition Intake : Type :=
  option string -> string -> list User * gmap (option string) nat ->
  result (list User * gmap (option string) nat * (string * bool)).

Definition get_response (engine : Intake) (phone_number : option string)
  (message_body : string) : M (string * bool) :=
  fun s =>
    match engine phone_number message_body (heap s, users s) with
    | Ok (h, m, r) => Done r (set_users (fun _ => m) (set_heap (fun _ => h) s))
    | Raise e => Raised e s
    end.

(** [/sms], lines 70-82. *)
Definition sms (engine : Intake) (From Body : option string) : M page :=
  let phone_number := From in
  message_body ←
    match Body with
    | Some b => mret (strip b)
    | None => raise (OtherError "'NoneType' object has no attribute 'strip'")
    end;
  (if String.eqb (upper message_body) "RESTART"
   then users_delete phone_number else mret tt);;
  '(response, cont) ← get_response engine phone_number message_body;
  (if negb cont
   then user ← users_getitem phone_number;
        modify (set_user_queue (fun q => deque.append q user))
   else mret tt);;
  mret (twiml response).

(** [/triage], lines 53-66, for the client whose session is [c]. *)
Definition triaging (c : nat) : M page :=
  s ← get;
  if (0 <? length (user_queue s))%nat || bool_decide (is_Some (user_uuid (session_of s c)))
  then
    (if bool_decide (is_Some (user_uuid (session_of s c))) then mret tt
     else
       '(user, q) ← lift (deque.popleft (user_queue s));
       modify (set_user_queue (fun _ => q));;
       u ← deref user;
       modify (set_session c {| user_uuid := uuid u; user_vals := Some (values u) |}));;
    s' ← get;
    mret (triage_html (user_vals (session_of s' c)) (user_uuid (session_of s' c)))
  else mret no_users_triage_html.

(** Lines 107-109 of [verdict]: the block under
    [with work_available_condition].  The request thread enters it when no
    worker owns the lock, and has left it when the step ends. *)
Definition enqueue (user : nat) : M unit :=
  fun s =>
    match lock s with
    | Some _ => Blocked
    | None => Done tt (notify (set_to_respond_queue (fun q => deque.append q user) s))
    end.

(** Lines 102-106 of [verdict]. *)
Definition attach_disposition (triage_code user_number : option string)
  (triage_instructions get_hospital_location : pyval) : M nat :=
  user ← get_or_create user_number;
  values_setitem user "phone_number" (of_form user_number);;
  values_setitem user "triage_code" (of_form triage_code);;
  values_setitem user "triage_instructions" triage_instructions;;
  values_setitem user "get_hospital" get_hospital_location;;
  mret user.

(** [/verdict], lines 86-111, for the client whose session is [c]. *)
Definition verdict (c : nat) (triages phonenumber : option string) : M page :=
  modify (set_session c empty_session);;
  let triage_code := triages in
  let user_number := phonenumber in
  let '(triage_instructions, get_hospital_location) :=
    get_triage_instructions triage_code in
  (if is_None triage_instructions then
     user ← users_getitem user_number;
     modify (set_user_queue (fun q => deque.appendleft q user))
   else
     user ← attach_disposition triage_code user_number
              triage_instructions get_hospital_location;
     enqueue user;;
     users_delete user_number);;
  mret verdict_html.

(** ** The worker thread [do_work] *)

(** [BaseException.with_traceback(tb)] takes exactly one argument and
    returns the exception. *)
Definition with_traceback (e : exn) (args : list pyval) : result exn :=
  match args with
  | [_] => Ok e
  | _ => Raise (TypeError "BaseException.with_traceback() takes exactly one argument")
  end.

(** How one pass of the inner [while True] ends. *)
Inductive pass : Type :=
  | PassBreak (evs : list event)  (* a [break] was reached *)
  | PassSleep (evs : list event)  (* the [ValueError] clause: sleep, then loop *)
  | PassRaise (e : exn).          (* an exception leaves the inner loop *)

(** Lines 138-161: the inner [try] with its two [except] clauses.  The
    argument of [print] is evaluated before [print] is called. *)
Definition inner_pass (cfg : Config) (E : Ext) (vals : gmap string pyval) : pass :=
  match pipeline cfg E vals with
  | Ok (body, to) => PassBreak [ESent (twilio_number cfg) body to]
  | Raise (ValueError m) => PassSleep [EStderr ("Error: " +:+ exn_str (ValueError m))]
  | Raise (KeyError k) =>
      match with_traceback (KeyError k) [] with
      | Ok ke => PassBreak [EStderr ("Value not found: " +:+ exn_str ke)]
      | Raise e => PassRaise e
      end
  | Raise e => PassRaise e
  end.

(** One step of worker [t]; [E] is how the collaborators answer if the step
    is a pass of the pipeline.  [None]: the worker cannot move (it needs the
    lock, or it is suspended in [wait()]).  Leaving the [with] block after a
    [break] is part of the step that breaks.  The local variable [user]
    always holds the address of an object; were there none, reading
    [user.values] would raise, which the bare [except] catches. *)
Definition do_work (t : nat) (E : Ext) (s : State) : option State :=
  pc ← pcs s !! t;
  match pc with
  | WTop =>
      match lock s with
      | None => Some (set_pc t WLocked (set_lock (Some t) s))
      | Some _ => None
      end
  | WLocked =>
      match deque.popleft (to_respond_queue s) with
      | Ok (user, q) => Some (set_pc t (WPipe user) (set_to_respond_queue (fun _ => q) s))
      | Raise _ => Some (wait t s)
      end
  | WPipe user =>
      match heap s !! user with
      | Some u =>
          match inner_pass (config s) E (values u) with
          | PassBreak evs => Some (set_pc t WTop (set_lock None (emit evs s)))
          | PassSleep evs => Some (set_pc t (WSleep user) (emit evs s))
          | PassRaise _ => Some (wait t s)
          end
      | None => Some (wait t s)
      end
  | WSleep user => Some (set_pc t (WPipe user) (emit [ESleep 1] s))
  | WWait => None
  | WNotified =>
      match lock s with
      | None => Some (set_pc t WResumed (set_lock (Some t) s))
      | Some _ => None
      end
  | WResumed => Some (set_pc t WTop (set_lock None s))
  end.

(** ** The process: workers and request threads interleaved *)

Inductive label : Type :=
  | LWorker (t : nat) (E : Ext)
  | LSms (engine : Intake) (From Body : option string)
  | LTriaging (c : nat)
  | LVerdict (c : nat) (triages phonenumber : option string).

Definition handle {A} (m : M A) (s : State) : option State :=
  match m s with
  | Done _ s' => Some s'
  | Raised _ s' => Some s'
  | Blocked => None
  end.

Definition step (l : label) (s : State) : option State :=
  match l with
  | LWorker t E => do_work t E s
  | LSms engine From Body => handle (sms engine From Body) s
  | LTriaging c => handle (triaging c) s
  | LVerdict c triages phonenumber => handle (verdict c triages phonenumber) s
  end.

Fixpoint run (ls : list label) (s : State) : option State :=
  match ls with
  | [] => Some s
  | l :: ls' => match step l s with Some s' => run ls' s' | None => None end
  end.

Definition reachable (s : State) : Prop :=
  exists cfg n ls, run ls (init_state cfg n) = Some s.

(** ** Vocabulary of the properties *)

(** [n] successive [popleft]s: the records returned, in order, and the rest. *)
Fixpoint dequeue_n {A} (n : nat) (q : list A) : result (list A * list A) :=
  match n with
  | O => Ok ([], q)
  | S n' =>
      '(x, q') ← deque.popleft q;
      '(xs, q'') ← dequeue_n n' q';
      Ok (x :: xs, q'')
  end.

(** The program points of [do_work] that lie inside the [with] block with
    the lock owned by the worker. *)
Definition holds_lock (pc : wpc) : bool :=
  match pc with
  | WLocked | WPipe _ | WSleep _ | WResumed => true
  | WTop | WWait | WNotified => false
  end.

(** The worker is running the follow-up pipeline on a record. *)
Definition in_pipeline (pc : wpc) : bool :=
  match pc with
  | WPipe _ | WSleep _ => true
  | _ => false
  end.

(** The coordinator's invariant: the lock is owned by exactly the worker
    that is inside its [with] block, and the waiters are distinct workers
    suspended in [wait()]. *)
Record lock_inv (s : State) : Prop := {
  inv_owner : forall t, lock s = Some t <->
                exists pc, pcs s !! t = Some pc /\ holds_lock pc = true;
  inv_waiters : forall t, t ∈ waiters s -> pcs s !! t = Some WWait;
  inv_nodup : NoDup (waiters s)
}.

(** The identities of the records in the Dispatch Queue, head first. *)
Definition queue_ids (s : State) : list (option string) :=
  omap (fun l => uuid <$> heap s !! l) (to_respond_queue s).

(** The repository maps an identity to a live object carrying that
    identity, and the Dispatch Queue holds live objects. *)
Record store_ok (s : State) : Prop := {
  ok_users : forall k l, users s !! k = Some l ->
               exists u, heap s !! l = Some u /\ uuid u = k;
  ok_queue : forall l, l ∈ to_respond_queue s -> l < length (heap s)
}.

(** The steps of worker [t] while it retries: for each answer of the
    collaborators one pass of the pipeline, then the sleep. *)
Definition retry_labels (t : nat) (Es : list Ext) : list label :=
  Es ≫= (fun E => [LWorker t E; LWorker t E]).

(** What the worker prints and how long it sleeps over these passes. *)
Definition retry_events (cfg : Config) (vals : gmap string pyval) (Es : list Ext)
  : list event :=
  Es ≫= (fun E =>
    match pipeline cfg E vals with
    | Raise (ValueError m) => [EStderr ("Error: " +:+ m); ESleep 1]
    | _ => []
    end).

(** The disposition fields as lines 103-106 of [verdict] store them. *)
Definition with_disposition (vals : gmap string pyval)
  (phone_number triage_code triage_instructions get_hospital : pyval)
  : gmap string pyval :=
  <["get_hospital" := get_hospital]>
    (<["triage_instructions" := triage_instructions]>
       (<["triage_code" := triage_code]>
          (<["phone_number" := phone_number]> vals))).

(** What the coordinator consists of, with the Dispatch Queue and the
    output: a handler that leaves these alone cannot be told from no handler
    by the workers. *)
Definition coord_eq (s s' : State) : Prop :=
  config s' = config s /\ lock s' = lock s /\ waiters s' = waiters s /\
  pcs s' = pcs s /\ to_respond_queue s' = to_respond_queue s /\
  trace s' = trace s.

Definition keeps {A} (m : M A) : Prop :=
  forall s, match m s with
            | Done _ s' | Raised _ s' => coord_eq s s'
            | Blocked => True
            end.

(** Everything but the program points and the output is as before. *)
Definition frame_eq (s s' : State) : Prop :=
  config s' = config s /\ heap s' = heap s /\ users s' = users s /\
  user_queue s' = user_queue s /\ to_respond_queue s' = to_respond_queue s /\
  lock s' = lock s /\ waiters s' = waiters s /\ sessions s' = sessions s.

(** *** Sample data for the examples *)

Definition sample_config : Config :=
  {| twilio_number := "+15550100"; zip_code_radius := 25 |}.

(** Collaborators that answer, with no facility found. *)
Definition ext_ok : Ext :=
  {| get_hospital_records_within_distance := fun _ _ => Ok [];
     get_match_weights := fun _ _ _ => Ok [];
     make_hospital_choice := fun _ _ => Ok [];
     messages_create := fun _ _ _ => Ok tt |}.

(** A notifier that rejects the message with a [ValueError]. *)
Definition ext_busy : Ext :=
  {| get_hospital_records_within_distance := fun _ _ => Ok [];
     get_match_weights := fun _ _ _ => Ok [];
     make_hospital_choice := fun _ _ => Ok [];
     messages_create := fun _ _ _ => Raise (ValueError "rejected") |}.

(** An intake engine with a single question, the zip code: it creates the
    user object on first contact, keeps the answer, and answers
    [cont = False] (the intake is complete). *)
Definition intake_done : Intake :=
  fun phone body '(h, m) =>
    match m !! phone with
    | Some _ => Ok (h, m, ("Thank you", false))
    | None => Ok (h ++ [{| uuid := phone; values := {[ "zip_code" := VStr body ]} |}],
                  <[phone := length h]> m, ("Thank you", false))
    end.

Definition alice : option string := Some "+15550001".
Definition bob : option string := Some "+15550002".

Definition alice_record : User :=
  {| uuid := alice; values := {[ "zip_code" := VStr "02139" ]} |}.
Definition bob_record : User :=
  {| uuid := bob; values := {[ "zip_code" := VStr "10001" ]} |}.

(** Alice, then Bob, have completed the intake and wait for a reviewer;
    the two workers have not started yet. *)
Definition st_pending : State :=
  {| config := sample_config; heap := [alice_record; bob_record];
     users := {[ alice := 0; bob := 1 ]};
     user_queue := [0; 1]; to_respond_queue := [];
     lock := None; waiters := []; pcs := [WTop; WTop];
     sessions := ∅; trace := [] |}.

(** The state after the steps [ls], when they can all be taken. *)
Definition after (ls : list label) (s : State) : State := default s (run ls s).

(** Alice (to stay at home) and then Bob (level 1, his zip code known) have
    been dispatched; worker 0 has taken Alice's record and is about to run
    the pipeline on it, worker 1 has not moved. *)
Definition alice_dispatched : User :=
  {| uuid := alice;
     values := with_disposition ∅ (VStr "+15550001") (VStr "home")
                 (VStr "Stay at home, rest, and take medication as necessary")
                 (VBool false) |}.
Definition bob_dispatched : User :=
  {| uuid := bob;
     values := with_disposition {[ "zip_code" := VStr "10001" ]}
                 (VStr "+15550002") (VStr "LEVEL 1")
                 (VStr "Please seek Triage Level 1 assistance; you will be provided with a list of nearby hospitals/clinics:")
                 (VBool true) |}.

Definition dispatch_two : list label :=
  [LVerdict 0 (Some "home") alice;
   LSms intake_done bob (Some "10001");
   LVerdict 0 (Some "LEVEL 1") bob].

Definition st_working : State :=
  after (dispatch_two ++ [LWorker 0 ext_ok; LWorker 0 ext_ok])
    (init_state sample_config 2).

(** A reviewer sends Alice to level 1 care although the repository has no
    record of her (so no zip code), then Bob home; worker 0 has taken
    Alice's record. *)
Definition dispatch_without_zip : list label :=
  [LVerdict 0 (Some "LEVEL 1") alice; LVerdict 0 (Some "home") bob].

Definition st_missing : State :=
  after (dispatch_without_zip ++ [LWorker 0 ext_ok; LWorker 0 ext_ok])
    (init_state sample_config 2).

(** Alice's record is in the Dispatch Queue and no worker has started. *)
Definition st_one_dispatched : State :=
  after [LVerdict 0 (Some "home") alice] (init_state sample_config 2).

(** *** Further vocabulary *)

(** The keys of [triage_responses]. *)
Definition known_codes : list string :=
  ["home"; "LEVEL 1"; "LEVEL 2"; "LEVEL 3"; "LEVEL 4"; "gettest";
   "checkinlater8"; "checkinlater16"; "checkinlater24"].

(** The attributes the repository holds for an identity before a verdict
    (none when it has no record of it). *)
Definition prior_values (s : State) (number : option string) : gmap string pyval :=
  match users s !! number with
  | Some l => match heap s !! l with Some u => values u | None => ∅ end
  | None => ∅
  end.

(** A facility record with the five attributes the worker prints. *)
Definition facility (name address city state zip : string) : hospital :=
  {[ "attributes" :=
       {[ "NAME" := name; "ADDRESS" := address; "CITY" := city;
          "STATE" := state; "ZIP" := zip ]} ]}.

(** The worker threads as [__main__] starts them, each running until it
    has looked at the queue once. *)
Definition start_workers (n : nat) (E : Ext) : list label :=
  seq 0 n ≫= (fun t => [LWorker t E; LWorker t E]).

(** [k] workers suspended in [wait()], [m] workers not started yet, and
    nothing else. *)
Definition idle_pool (cfg : Config) (k m : nat) : State :=
  {| config := cfg; heap := []; users := ∅; user_queue := [];
     to_respond_queue := []; lock := None; waiters := seq 0 k;
     pcs := replicate k WWait ++ replicate m WTop; sessions := ∅; trace := [] |}.

(** ** Request threads, line by line *)

(** The handlers above run a request in one piece.  The server runs the
    requests on several threads and [/triage] and [/verdict] take no lock
    except in the [with] block of line 107, so another thread can run between
    the lines of a request.  Where a request thread stands: *)
Inductive rpc : Type :=
  | RVerdict (c : nat) (triages phonenumber : option string) (* line 88 *)
  | RVerdictWith (user : nat) (user_number : option string)  (* line 107, before the [with] *)
  | RVerdictDelete (user_number : option string)             (* line 110 *)
  | RTriaging (c : nat)                                      (* line 57 *)
  | RTriagingPop (c : nat)                                   (* line 59 *)
  | RFinished (response : page)
  | RFailed (e : exn).

(** Lines 88-106 of [verdict] (lines 88-99 and 111 on the Requeue Path). *)
Definition verdict_begin (c : nat) (triages phonenumber : option string) : M rpc :=
  modify (set_session c empty_session);;
  let triage_code := triages in
  let user_number := phonenumber in
  let '(triage_instructions, get_hospital_location) :=
    get_triage_instructions triage_code in
  if is_None triage_instructions then
    user ← users_getitem user_number;
    modify (set_user_queue (fun q => deque.appendleft q user));;
    mret (RFinished verdict_html)
  else
    user ← attach_disposition triage_code user_number
             triage_instructions get_hospital_location;
    mret (RVerdictWith user user_number).

(** Lines 57-58 and, when nothing is to be popped, the [render_template] of
    line 63 or 66. *)
Definition triaging_check (c : nat) : M rpc :=
  s ← get;
  if (0 <? length (user_queue s))%nat || bool_decide (is_Some (user_uuid (session_of s c)))
  then
    if bool_decide (is_Some (user_uuid (session_of s c)))
    then mret (RFinished (triage_html (user_vals (session_of s c))
                            (user_uuid (session_of s c))))
    else mret (RTriagingPop c)
  else mret (RFinished no_users_triage_html).

(** Lines 59-63. *)
Definition triaging_pop (c : nat) : M rpc :=
  s ← get;
  '(user, q) ← lift (deque.popleft (user_queue s));
  modify (set_user_queue (fun _ => q));;
  u ← deref user;
  modify (set_session c {| user_uuid := uuid u; user_vals := Some (values u) |});;
  s' ← get;
  mret (RFinished (triage_html (user_vals (session_of s' c)) (user_uuid (session_of s' c)))).

(** The next piece of a request thread: what it runs before another thread
    may run.  The [with] block of lines 107-109 is one piece, entered only
    when no worker owns the lock; line 110 is run after the block has been
    left. *)
Definition request_step (r : rpc) : M rpc :=
  match r with
  | RVerdict c triages phonenumber => verdict_begin c triages phonenumber
  | RVerdictWith user user_number => enqueue user;; mret (RVerdictDelete user_number)
  | RVerdictDelete user_number => users_delete user_number;; mret (RFinished verdict_html)
  | RTriaging c => triaging_check c
  | RTriagingPop c => triaging_pop c
  | RFinished _ | RFailed _ => fun _ => Blocked
  end.

(** A request run to its end with no other thread in between ([n] pieces at
    most). *)
Fixpoint uninterrupted (n : nat) (r : rpc) : M rpc :=
  match n with
  | O => mret r
  | S n' =>
      match r with
      | RFinished _ | RFailed _ => mret r
      | _ => r' ← request_step r; uninterrupted n' r'
      end
  end.

(** The server: the shared state and the request threads in flight. *)
Record Server : Type := {
  shared : State;
  requests : list rpc
}.

Inductive slabel : Type :=
  | SArrive (r : rpc)                 (* a request arrives: a new thread *)
  | SRequest (i : nat)                (* request thread [i] runs its next piece *)
  | SWorker (t : nat) (E : Ext)       (* worker [t] takes a step *)
  | SSms (engine : Intake) (From Body : option string).

Definition is_entry (r : rpc) : bool :=
  match r with
  | RVerdict _ _ _ | RTriaging _ => true
  | _ => false
  end.

Definition server_step (l : slabel) (sv : Server) : option Server :=
  match l with
  | SArrive r =>
      if is_entry r
      then Some {| shared := shared sv; requests := requests sv ++ [r] |}
      else None
  | SRequest i =>
      r ← requests sv !! i;
      match request_step r (shared sv) with
      | Done r' s' => Some {| shared := s'; requests := <[i := r']> (requests sv) |}
      | Raised e s' => Some {| shared := s'; requests := <[i := RFailed e]> (requests sv) |}
      | Blocked => None
      end
  | SWorker t E =>
      s' ← do_work t E (shared sv);
      Some {| shared := s'; requests := requests sv |}
  | SSms engine From Body =>
      s' ← handle (sms engine From Body) (shared sv);
      Some {| shared := s'; requests := requests sv |}
  end.

Fixpoint server_run (ls : list slabel) (sv : Server) : option Server :=
  match ls with
  | [] => Some sv
  | l :: ls' =>
      match server_step l sv with
      | Some sv' => server_run ls' sv'
      | None => None
      end
  end.

(** The server as it starts, and with Alice alone waiting for a reviewer. *)
Definition server_init : Server :=
  {| shared := init_state sample_config 2; requests := [] |}.


(** * Properties *)

(** ** Basic facts *)

Lemma getitem_Some {V} (d : gmap string V) key v :
  d !! key = Some v -> getitem d key = Ok v.
Proof. unfold getitem. intros ->. reflexivity. Qed.

Lemma getitem_None {V} (d : gmap string V) key :
  d !! key = None -> getitem d key = Raise (KeyError key).
Proof. unfold getitem. intros ->. reflexivity. Qed.

Lemma dict_get_eqb {V} (d : list (string * V)) key v :
  dict_get d key = Some v -> exists k, (k, v) ∈ d /\ String.eqb k key = true.
Proof.
  induction d as [|[k w] d IH]; simpl; [discriminate|].
  destruct (String.eqb k key) eqn:Hk.
  - intros [= ->]. exists k. split; [left | exact Hk].
  - intros H. destruct (IH H) as (k' & Hin & Hk'). exists k'. split; [by right | exact Hk'].
Qed.

Lemma known_code_instructions code :
  known_code code = true ->
  exists text flag, get_triage_instructions code = (VStr text, VBool flag).
Proof.
  unfold known_code, get_triage_instructions.
  destruct code as [c|]; [|discriminate].
  intros H. apply bool_decide_eq_true in H. destruct H as [[text flag] H].
  exists text, flag. by rewrite H.
Qed.

Lemma unknown_code_instructions code :
  known_code code = false -> get_triage_instructions code = (VNone, VNone).
Proof.
  unfold known_code, get_triage_instructions.
  destruct code as [c|]; [|reflexivity].
  intros H. apply bool_decide_eq_false in H.
  destruct (dict_get triage_responses c) as [[text flag]|] eqn:E; [|reflexivity].
  exfalso. apply H. by eexists.
Qed.

Lemma pipeline_no_lookup cfg E vals pn tc text :
  pipeline cfg E (with_disposition vals pn tc (VStr text) (VBool false)) =
  (_ ← messages_create E (twilio_number cfg) (VStr text) pn; Ok (VStr text, pn)).
Proof.
  unfold pipeline, with_disposition.
  rewrite (getitem_Some _ "triage_instructions" (VStr text)) by by simplify_map_eq.
  rewrite (getitem_Some _ "get_hospital" (VBool false)) by by simplify_map_eq.
  simpl.
  rewrite (getitem_Some _ "phone_number" pn) by by simplify_map_eq.
  reflexivity.
Qed.

(** ** The facility-lookup flag *)

(** C10: the flag returned by [get_triage_instructions] is [True] for exactly
    the codes 'LEVEL 1' to 'LEVEL 4'; for 'gettest' it is [False] although the
    text announces a list of testing locations, so that the worker's pipeline,
    on a record carrying the disposition fields of 'gettest', calls none of
    the facility lookups and hands the notifier that text with nothing
    appended. *)
Theorem facility_flag_levels_only :
  (forall code,
     (get_triage_instructions code).2 = VBool true <->
     code ∈ [Some "LEVEL 1"; Some "LEVEL 2"; Some "LEVEL 3"; Some "LEVEL 4"]) /\
  get_triage_instructions (Some "gettest") =
    (VStr "Please get tested for COVID-19; you will be provided with a list of nearby testing locations:",
     VBool false) /\
  (forall cfg E vals number,
     let '(text, flag) := get_triage_instructions (Some "gettest") in
     inner_pass cfg E
       (with_disposition vals (of_form number) (VStr "gettest") text flag) =
     match messages_create E (twilio_number cfg) text (of_form number) with
     | Ok _ => PassBreak [ESent (twilio_number cfg) text (of_form number)]
     | Raise (ValueError m) => PassSleep [EStderr ("Error: " +:+ m)]
     | Raise (KeyError k) => PassRaise (TypeError "BaseException.with_traceback() takes exactly one argument")
     | Raise e => PassRaise e
     end).
Proof.
  split; [|split].
  - intros code. split.
    + unfold get_triage_instructions.
      destruct code as [c|]; [|discriminate].
      destruct (dict_get triage_responses c) as [[text flag]|] eqn:E; [|discriminate].
      cbn [snd]. intros [= ->].
      apply dict_get_eqb in E as (k & Hin & Hk).
      apply String.eqb_eq in Hk. subst k.
      unfold triage_responses in Hin.
      repeat (apply elem_of_cons in Hin as [Hin|Hin];
              [injection Hin as ? ?; subst; try discriminate; set_solver|]).
      by apply elem_of_nil in Hin.
    + intros H.
      repeat (apply elem_of_cons in H as [->|H]; [reflexivity|]).
      by apply elem_of_nil in H.
  - reflexivity.
  - intros cfg E vals number. cbn [get_triage_instructions dict_get triage_responses].
    simpl. unfold inner_pass. rewrite pipeline_no_lookup.
    destruct (messages_create E _ _ _) as [[]|[]]; reflexivity.
Qed.

(** ** The handlers, step by step *)

Lemma bind_Done {A B} (m : M A) (k : A -> M B) s a s' :
  m s = Done a s' -> (m ≫= k) s = k a s'.
Proof. unfold mbind, M_bind. intros ->. reflexivity. Qed.

Lemma bind_Raised {A B} (m : M A) (k : A -> M B) s e s' :
  m s = Raised e s' -> (m ≫= k) s = Raised e s'.
Proof. unfold mbind, M_bind. intros ->. reflexivity. Qed.

Lemma bind_Blocked {A B} (m : M A) (k : A -> M B) s :
  m s = Blocked -> (m ≫= k) s = Blocked.
Proof. unfold mbind, M_bind. intros ->. reflexivity. Qed.

Lemma deref_Some l s u : heap s !! l = Some u -> deref l s = Done u s.
Proof. unfold deref. intros ->. reflexivity. Qed.

Lemma values_setitem_Some l key v s u :
  heap s !! l = Some u ->
  values_setitem l key v s =
  Done tt (set_heap (fun h => <[l := {| uuid := uuid u; values := <[key := v]> (values u) |}]> h) s).
Proof.
  intros H. unfold values_setitem.
  rewrite (bind_Done _ _ _ _ _ (deref_Some _ _ _ H)). reflexivity.
Qed.

Lemma list_insert_lookup_Some {A} (h : list A) l (x y : A) :
  h !! l = Some x -> <[l := y]> h !! l = Some y.
Proof. intros H. apply list_lookup_insert_eq. by eapply lookup_lt_Some. Qed.

(** The object [verdict] attaches the disposition to, and the state after
    lines 102-106, when the repository knows the identity. *)
Lemma attach_disposition_known code num ti gh s l u :
  users s !! num = Some l -> heap s !! l = Some u ->
  attach_disposition code num ti gh s =
  Done l (set_heap (fun h =>
            <[l := {| uuid := uuid u;
                      values := with_disposition (values u) (of_form num) (of_form code) ti gh |}]> h) s).
Proof.
  intros Hu Hl. unfold attach_disposition.
  erewrite bind_Done; [|unfold get_or_create; rewrite Hu; reflexivity].
  erewrite bind_Done; [|by apply values_setitem_Some].
  erewrite bind_Done;
    [|apply values_setitem_Some; simpl; repeat eapply list_insert_lookup_Some; eassumption].
  erewrite bind_Done;
    [|apply values_setitem_Some; simpl; repeat eapply list_insert_lookup_Some; eassumption].
  erewrite bind_Done;
    [|apply values_setitem_Some; simpl; repeat eapply list_insert_lookup_Some; eassumption].
  unfold mret, M_ret, set_heap, with_disposition; simpl.
  do 2 f_equal. rewrite !list_insert_insert_eq. reflexivity.
Qed.

(** The same for an identity the repository does not know: a new object. *)
Lemma attach_disposition_new code num ti gh s :
  users s !! num = None ->
  attach_disposition code num ti gh s =
  Done (length (heap s))
    (set_heap (fun h =>
       h ++ [{| uuid := num;
                values := with_disposition ∅ (of_form num) (of_form code) ti gh |}])
       (set_users (fun m => <[num := length (heap s)]> m) s)).
Proof.
  intros Hu. unfold attach_disposition.
  erewrite bind_Done; [|unfold get_or_create; rewrite Hu; reflexivity].
  assert (Hnew : (heap s ++ [{| uuid := num; values := ∅ |}]) !! length (heap s)
                 = Some {| uuid := num; values := ∅ |}).
  { rewrite lookup_app_r by lia. by rewrite Nat.sub_diag. }
  erewrite bind_Done; [|apply values_setitem_Some; simpl; apply Hnew].
  erewrite bind_Done;
    [|apply values_setitem_Some; simpl; repeat eapply list_insert_lookup_Some; eassumption].
  erewrite bind_Done;
    [|apply values_setitem_Some; simpl; repeat eapply list_insert_lookup_Some; eassumption].
  erewrite bind_Done;
    [|apply values_setitem_Some; simpl; repeat eapply list_insert_lookup_Some; eassumption].
  unfold mret, M_ret, set_heap, set_users, with_disposition; simpl.
  do 2 f_equal. rewrite !list_insert_insert_eq.
  rewrite insert_app_r_alt by lia. rewrite Nat.sub_diag. reflexivity.
Qed.

Lemma notify_frame s :
  config (notify s) = config s /\ heap (notify s) = heap s /\
  users (notify s) = users s /\ user_queue (notify s) = user_queue s /\
  to_respond_queue (notify s) = to_respond_queue s /\ lock (notify s) = lock s /\
  sessions (notify s) = sessions s /\ trace (notify s) = trace s.
Proof. unfold notify. destruct (waiters s); repeat split; reflexivity. Qed.

(** [verdict] on a code outside [triage_responses]: the Requeue Path. *)
Lemma verdict_requeue c code num s l :
  known_code code = false -> users s !! num = Some l ->
  verdict c code num s =
  Done verdict_html
    (set_user_queue (fun q => deque.appendleft q l) (set_session c empty_session s)).
Proof.
  intros Hcode Hu. unfold verdict.
  rewrite (unknown_code_instructions _ Hcode). cbn [is_None].
  unfold mbind, M_bind, modify, users_getitem, mret, M_ret. simpl.
  rewrite Hu. reflexivity.
Qed.

(** [verdict] on a code of [triage_responses]: attach, enqueue, delete. *)
Lemma verdict_dispatch c code num s text flag user s1 :
  get_triage_instructions code = (VStr text, VBool flag) ->
  attach_disposition code num (VStr text) (VBool flag)
    (set_session c empty_session s) = Done user s1 ->
  lock s1 = None ->
  verdict c code num s =
  Done verdict_html
    (set_users (fun m => delete num m)
       (notify (set_to_respond_queue (fun q => deque.append q user) s1))).
Proof.
  intros Hcode Hatt Hlock. unfold verdict. rewrite Hcode. cbn [is_None].
  unfold mbind, M_bind, modify, mret, M_ret. cbn beta iota. rewrite Hatt.
  unfold enqueue, users_delete, modify. rewrite Hlock. reflexivity.
Qed.

(** While a worker owns the lock the dispatching [verdict] cannot enter its
    [with] block. *)
Lemma verdict_dispatch_blocked c code num s text flag user s1 t :
  get_triage_instructions code = (VStr text, VBool flag) ->
  attach_disposition code num (VStr text) (VBool flag)
    (set_session c empty_session s) = Done user s1 ->
  lock s1 = Some t ->
  verdict c code num s = Blocked.
Proof.
  intros Hcode Hatt Hlock. unfold verdict. rewrite Hcode. cbn [is_None].
  unfold mbind, M_bind, modify, mret, M_ret. cbn beta iota. rewrite Hatt.
  unfold enqueue. rewrite Hlock. reflexivity.
Qed.

(** Under [store_ok] the attach step of a dispatching [verdict] succeeds;
    it leaves the coordinator and the two queues alone. *)
Lemma attach_disposition_ok code num ti gh s :
  store_ok s ->
  exists user s1,
    attach_disposition code num ti gh s = Done user s1 /\
    lock s1 = lock s /\ waiters s1 = waiters s /\ pcs s1 = pcs s /\
    to_respond_queue s1 = to_respond_queue s /\ user_queue s1 = user_queue s /\
    trace s1 = trace s /\ sessions s1 = sessions s /\
    length (heap s) <= length (heap s1) /\
    (exists u, heap s1 !! user = Some u /\ uuid u = num /\
       exists vals, values u = with_disposition vals (of_form num) (of_form code) ti gh) /\
    (forall l, l < length (heap s) -> uuid <$> heap s1 !! l = uuid <$> heap s !! l) /\
    users s1 !! num = Some user.
Proof.
  intros Hok. destruct (users s !! num) as [l|] eqn:Hu.
  - destruct (ok_users s Hok _ _ Hu) as (u & Hl & Hid).
    eexists l, _. split; [by eapply attach_disposition_known|].
    simpl. repeat split; try reflexivity.
    + by rewrite length_insert.
    + eexists. split; [by eapply list_insert_lookup_Some|]. simpl. eauto.
    + intros l' _. destruct (decide (l = l')) as [<-|Hne].
      * erewrite list_insert_lookup_Some by eassumption. by rewrite Hl.
      * by rewrite list_lookup_insert_ne.
    + exact Hu.
  - eexists _, _. split; [by apply attach_disposition_new|].
    simpl. repeat split; try reflexivity.
    + rewrite length_app. lia.
    + eexists. split.
      * rewrite lookup_app_r by lia. rewrite Nat.sub_diag. reflexivity.
      * simpl. eauto.
    + intros l' Hl'. by rewrite lookup_app_l.
    + apply lookup_insert_eq.
Qed.

(** [/triage] for a client with nobody in its session: the head of the
    Intake Admission Queue moves into the session. *)
Lemma triaging_take c s user q u :
  user_uuid (session_of s c) = None ->
  user_queue s = user :: q -> heap s !! user = Some u ->
  triaging c s =
  Done (triage_html (Some (values u)) (uuid u))
    (set_session c {| user_uuid := uuid u; user_vals := Some (values u) |}
       (set_user_queue (fun _ => q) s)).
Proof.
  intros Hs Hq Hu. unfold triaging.
  unfold mbind, M_bind, get, modify, lift, mret, M_ret. cbn beta iota.
  rewrite Hs, Hq. cbn [length Nat.ltb Nat.leb orb deque.popleft].
  rewrite bool_decide_eq_false_2 by (intros [? ?]; discriminate).
  unfold deref. cbn [heap set_user_queue]. rewrite Hu.
  unfold session_of. cbn [sessions set_session set_user_queue].
  rewrite lookup_insert_eq. reflexivity.
Qed.

Lemma session_of_set c c' x s :
  session_of (set_session c x s) c' = if decide (c = c') then x else session_of s c'.
Proof.
  unfold session_of. cbn [sessions set_session].
  rewrite lookup_insert. destruct (decide (c = c')); reflexivity.
Qed.

Lemma dequeue_n_all {A} (q : list A) : dequeue_n (length q) q = Ok (q, []).
Proof.
  induction q as [|x q IH]; [reflexivity|].
  cbn [length dequeue_n deque.popleft]. unfold mbind, result_bind, rbind.
  rewrite IH. reflexivity.
Qed.

Lemma foldl_append {A} (q xs : list A) : foldl deque.append q xs = q ++ xs.
Proof.
  revert q. induction xs as [|x xs IH]; intros q; simpl.
  - by rewrite app_nil_r.
  - rewrite IH. unfold deque.append. by rewrite <- app_assoc.
Qed.

(** ** Order of the Dispatch Queue *)

(** C6: the Dispatch Queue is first in, first out.  A dispatching [verdict]
    appends its record at the tail of [to_respond_queue]; the worker's
    [popleft] takes the record at the head; hence the records enqueued one
    after the other, E1..En, are dequeued in that same order. *)
Theorem dispatch_queue_fifo :
  (forall c code num s,
     known_code code = true -> lock s = None -> store_ok s ->
     exists user s',
       verdict c code num s = Done verdict_html s' /\
       to_respond_queue s' = to_respond_queue s ++ [user] /\
       exists u, heap s' !! user = Some u /\ uuid u = num) /\
  (forall t E s user q,
     pcs s !! t = Some WLocked -> to_respond_queue s = user :: q ->
     exists s',
       do_work t E s = Some s' /\
       pcs s' !! t = Some (WPipe user) /\ to_respond_queue s' = q) /\
  (forall q xs : list nat,
     dequeue_n (length (q ++ xs)) (foldl deque.append q xs) = Ok (q ++ xs, [])).
Proof.
  split; [|split].
  - intros c code num s Hcode Hlock Hok.
    destruct (known_code_instructions _ Hcode) as (text & flag & Hti).
    destruct (attach_disposition_ok code num (VStr text) (VBool flag)
                (set_session c empty_session s))
      as (user & s1 & Hatt & Hl & _ & _ & Hq & _ & _ & _ & _ & Hu & _ & _).
    { destruct Hok as [H1 H2]. split; [exact H1 | exact H2]. }
    exists user. eexists. split.
    + eapply verdict_dispatch; [exact Hti | exact Hatt | rewrite Hl; exact Hlock].
    + cbn [to_respond_queue heap set_users].
      destruct (notify_frame (set_to_respond_queue (fun q => deque.append q user) s1))
        as (_ & Hh & _ & _ & Hq' & _).
      rewrite Hq', Hh. cbn [to_respond_queue heap set_to_respond_queue].
      rewrite Hq. split; [reflexivity|].
      destruct Hu as (u & Hu & Hid & _). eauto.
  - intros t E s user q Hpc Hq. unfold do_work. rewrite Hpc. cbn [mbind option_bind].
    rewrite Hq. cbn [deque.popleft]. eexists. split; [reflexivity|].
    cbn [pcs to_respond_queue set_pc set_to_respond_queue]. split; [|reflexivity].
    apply list_lookup_insert_eq. by eapply lookup_lt_Some.
  - intros q xs. rewrite foldl_append. apply dequeue_n_all.
Qed.

(** ** The Requeue Path *)

(** C8, as stated, fails: a verdict with an unknown code is not always
    routed back.  After a reviewer has taken Alice from the queue and
    dispatched her (which deletes her identity from the repository), a
    verdict for her number with an unknown code raises [KeyError] at
    [user_model_repo.users[user_number]]; nothing is pushed to the Intake
    Admission Queue. *)
Lemma requeue_after_dispatch_raises :
  exists s1 key s2,
    run [LTriaging 0; LVerdict 0 (Some "home") alice] st_pending = Some s1 /\
    known_code (Some "requeue") = false /\
    verdict 0 (Some "requeue") alice s1 = Raised (KeyError key) s2 /\
    user_queue s1 = [1] /\ user_queue s2 = [1] /\
    to_respond_queue s2 = to_respond_queue s1.
Proof.
  eexists _, _, _. split; [vm_compute; reflexivity|].
  split; [vm_compute; reflexivity|].
  split; [vm_compute; reflexivity|].
  repeat split; vm_compute; reflexivity.
Qed.

(** C8, amended: a verdict whose triage code is not a key of
    [triage_responses] gets [(None, None)] from the lookup and attaches no
    disposition field to any record.  When the repository holds a record of
    the submitted identity, that record is pushed to the front of the Intake
    Admission Queue, nothing is appended to the Dispatch Queue and the
    handler returns its page; when it holds none,
    [user_model_repo.users[user_number]] raises [KeyError] and nothing is
    requeued. *)
Theorem unknown_code_requeues_or_raises c code num s :
  known_code code = false ->
  get_triage_instructions code = (VNone, VNone) /\
  (forall user, users s !! num = Some user ->
     exists s',
       verdict c code num s = Done verdict_html s' /\
       step (LVerdict c code num) s = Some s' /\
       heap s' = heap s /\ users s' = users s /\
       to_respond_queue s' = to_respond_queue s /\
       user_queue s' = user :: user_queue s /\
       lock s' = lock s /\ waiters s' = waiters s /\ pcs s' = pcs s) /\
  (users s !! num = None ->
     exists key s',
       verdict c code num s = Raised (KeyError key) s' /\
       heap s' = heap s /\ users s' = users s /\
       to_respond_queue s' = to_respond_queue s /\
       user_queue s' = user_queue s /\
       lock s' = lock s /\ waiters s' = waiters s /\ pcs s' = pcs s).
Proof.
  intros Hcode. split; [by apply unknown_code_instructions|]. split.
  - intros user Hu. eexists. split; [by apply verdict_requeue|].
    split; [|repeat split].
    unfold step, handle. by rewrite (verdict_requeue _ _ _ _ _ Hcode Hu).
  - intros Hu. unfold verdict.
    rewrite (unknown_code_instructions _ Hcode). cbn [is_None].
    unfold mbind, M_bind, modify, users_getitem, mret, M_ret. cbn beta iota.
    cbn [users set_session]. rewrite Hu.
    eexists _, _. split; [reflexivity|]. repeat split.
Qed.

Lemma unknown_code_requeues_or_raises_witness :
  (exists s',
     verdict 7 (Some "requeue") alice st_pending = Done verdict_html s' /\
     heap s' = heap st_pending /\ user_queue s' = [0; 0; 1] /\
     to_respond_queue s' = []) /\
  (exists key s',
     verdict 7 (Some "requeue") (Some "+15550009") st_pending = Raised (KeyError key) s' /\
     user_queue s' = [0; 1] /\ to_respond_queue s' = []).
Proof.
  destruct (unknown_code_requeues_or_raises 7 (Some "requeue") alice st_pending)
    as (_ & Hsome & _); [vm_compute; reflexivity|].
  destruct (unknown_code_requeues_or_raises 7 (Some "requeue") (Some "+15550009") st_pending)
    as (_ & _ & Hnone); [vm_compute; reflexivity|].
  split.
  - destruct (Hsome 0) as (s' & Hv & _ & Hh & _ & Hd & Hq & _); [vm_compute; reflexivity|].
    exists s'. split; [exact Hv|]. split; [exact Hh|]. split; [exact Hq | exact Hd].
  - destruct Hnone as (key & s' & Hv & _ & _ & Hd & Hq & _); [vm_compute; reflexivity|].
    exists key, s'. split; [exact Hv|]. split; [exact Hq | exact Hd].
Defined.

(** C7, as stated, fails: with Alice then Bob enqueued by [sms], a requeue of
    Alice ([verdict] with an unknown code, which does [appendleft] and
    removes nothing) leaves Alice twice in the queue, and the next two
    dequeues (two reviewers opening [/triage]) both yield Alice. *)
Lemma requeue_while_queued_yields_twice :
  dequeue_n 2 (deque.appendleft (deque.append (deque.append [] 0) 1) 0)
    = Ok ([0; 0], [1]) /\
  exists s,
    run [LSms intake_done alice (Some "02139"); LSms intake_done bob (Some "10001");
         LVerdict 0 (Some "requeue") alice; LTriaging 1; LTriaging 2]
      (init_state sample_config 2) = Some s /\
    user_uuid (session_of s 1) = alice /\
    user_uuid (session_of s 2) = alice /\
    user_uuid (session_of s 2) <> bob.
Proof.
  split; [reflexivity|].
  eexists. split; [vm_compute; reflexivity|].
  split; [vm_compute; reflexivity|]. split; [vm_compute; reflexivity|].
  vm_compute. discriminate.
Qed.

(** C7, amended: a requeued record precedes every record pending in the
    Intake Admission Queue, and when A and B were enqueued in that order and
    the triage page has taken A from the head, then a requeue of A followed
    by two head dequeues yields A first and then B. *)
Theorem requeue_precedes_pending s c c1 c2 code a b q ua ub na :
  known_code code = false ->
  user_queue s = a :: b :: q ->
  heap s !! a = Some ua -> uuid ua = Some na -> users s !! Some na = Some a ->
  heap s !! b = Some ub ->
  user_uuid (session_of s c) = None ->
  user_uuid (session_of s c1) = None ->
  user_uuid (session_of s c2) = None ->
  c1 <> c2 ->
  exists s2 s',
    run [LTriaging c; LVerdict c code (Some na)] s = Some s2 /\
    user_queue s2 = a :: b :: q /\
    run [LTriaging c1; LTriaging c2] s2 = Some s' /\
    session_of s' c1 = {| user_uuid := Some na; user_vals := Some (values ua) |} /\
    session_of s' c2 = {| user_uuid := uuid ub; user_vals := Some (values ub) |} /\
    user_queue s' = q.
Proof.
  intros Hcode Hq Ha Hna Hu Hb Hc Hc1 Hc2 Hne.
  eexists _, _. split.
  { cbn [run step]. unfold handle.
    rewrite (triaging_take c s a (b :: q) ua Hc Hq Ha).
    erewrite verdict_requeue; [reflexivity | exact Hcode | exact Hu]. }
  split; [reflexivity|].
  set (s2 := set_user_queue (fun q0 => deque.appendleft q0 a)
               (set_session c empty_session
                  (set_session c {| user_uuid := uuid ua; user_vals := Some (values ua) |}
                     (set_user_queue (fun _ => b :: q) s)))).
  assert (Hs2 : forall c', user_uuid (session_of s c') = None ->
            user_uuid (session_of s2 c') = None).
  { intros c' H. unfold s2, session_of in *. cbn [sessions set_user_queue set_session].
    rewrite !lookup_insert. destruct (decide (c = c')); [reflexivity | exact H]. }
  assert (Ht1 := triaging_take c1 s2 a (b :: q) ua (Hs2 _ Hc1) eq_refl Ha).
  set (s3 := set_session c1 {| user_uuid := uuid ua; user_vals := Some (values ua) |}
               (set_user_queue (fun _ => b :: q) s2)) in *.
  assert (Hs3 : user_uuid (session_of s3 c2) = None).
  { unfold s3. rewrite session_of_set. destruct (decide (c1 = c2)); [done|].
    apply (Hs2 _ Hc2). }
  assert (Ht2 := triaging_take c2 s3 b q ub Hs3 eq_refl Hb).
  split.
  { cbn [run step]. unfold handle. rewrite Ht1, Ht2. reflexivity. }
  split.
  { unfold session_of. cbn [sessions set_session set_user_queue].
    rewrite lookup_insert_ne by congruence. rewrite lookup_insert_eq.
    cbn [default]. by rewrite Hna. }
  split; [|reflexivity].
  rewrite session_of_set. by rewrite decide_True.
Qed.

Lemma requeue_precedes_pending_witness :
  exists s2 s',
    run [LTriaging 0; LVerdict 0 (Some "requeue") alice] st_pending = Some s2 /\
    user_queue s2 = [0; 1] /\
    run [LTriaging 1; LTriaging 2] s2 = Some s' /\
    session_of s' 1 = {| user_uuid := alice; user_vals := Some (values alice_record) |} /\
    session_of s' 2 = {| user_uuid := bob; user_vals := Some (values bob_record) |} /\
    user_queue s' = [].
Proof.
  apply (requeue_precedes_pending st_pending 0 1 2 (Some "requeue") 0 1 []
           alice_record bob_record "+15550001");
    try (vm_compute; reflexivity).
  discriminate.
Defined.

(** ** Handlers and the coordinator *)

Lemma coord_eq_refl s : coord_eq s s.
Proof. by repeat split. Qed.

Lemma coord_eq_trans s1 s2 s3 : coord_eq s1 s2 -> coord_eq s2 s3 -> coord_eq s1 s3.
Proof.
  unfold coord_eq. intros (?&?&?&?&?&?) (?&?&?&?&?&?).
  repeat split; congruence.
Qed.

Lemma keeps_ret {A} (a : A) : keeps (mret a).
Proof. intros s. apply coord_eq_refl. Qed.

Lemma keeps_bind {A B} (m : M A) (k : A -> M B) :
  keeps m -> (forall a, keeps (k a)) -> keeps (m ≫= k).
Proof.
  intros Hm Hk s. unfold mbind, M_bind. specialize (Hm s).
  destruct (m s) as [a s1|e s1|]; [|exact Hm|exact I].
  specialize (Hk a s1). destruct (k a s1); [| |exact I];
    by eapply coord_eq_trans.
Qed.

Lemma keeps_get : keeps get.
Proof. intros s. apply coord_eq_refl. Qed.

Lemma keeps_raise {A} e : keeps (@raise A e).
Proof. intros s. apply coord_eq_refl. Qed.

Lemma keeps_lift {A} (r : result A) : keeps (lift r).
Proof. intros s. unfold lift. destruct r; apply coord_eq_refl. Qed.

Lemma keeps_modify f : (forall s, coord_eq s (f s)) -> keeps (modify f).
Proof. intros H s. apply H. Qed.

Lemma keeps_deref l : keeps (deref l).
Proof. intros s. unfold deref. destruct (heap s !! l); apply coord_eq_refl. Qed.

Lemma keeps_values_setitem l key v : keeps (values_setitem l key v).
Proof.
  apply keeps_bind; [apply keeps_deref|]. intros u.
  apply keeps_modify. intros s. by repeat split.
Qed.

Lemma keeps_users_getitem num : keeps (users_getitem num).
Proof. intros s. unfold users_getitem. destruct (users s !! num); apply coord_eq_refl. Qed.

Lemma keeps_get_or_create num : keeps (get_or_create num).
Proof.
  intros s. unfold get_or_create. destruct (users s !! num); [apply coord_eq_refl|].
  by repeat split.
Qed.

Lemma keeps_users_delete num : keeps (users_delete num).
Proof. apply keeps_modify. intros s. by repeat split. Qed.

Lemma keeps_get_response engine phone body : keeps (get_response engine phone body).
Proof.
  intros s. unfold get_response.
  destruct (engine phone body (heap s, users s)) as [[[h m] r]|e];
    [by repeat split | apply coord_eq_refl].
Qed.

Lemma keeps_sms engine From Body : keeps (sms engine From Body).
Proof.
  unfold sms. apply keeps_bind.
  { destruct Body; [apply keeps_ret | apply keeps_raise]. }
  intros body. apply keeps_bind.
  { destruct (String.eqb _ _); [apply keeps_users_delete | apply keeps_ret]. }
  intros _. apply keeps_bind; [apply keeps_get_response|].
  intros [response cont]. apply keeps_bind; [|intros _; apply keeps_ret].
  destruct (negb cont); [|apply keeps_ret].
  apply keeps_bind; [apply keeps_users_getitem|].
  intros l. apply keeps_modify. intros s. by repeat split.
Qed.

Lemma keeps_triaging c : keeps (triaging c).
Proof.
  unfold triaging. apply keeps_bind; [apply keeps_get|]. intros s0.
  destruct (_ || _); [|apply keeps_ret].
  apply keeps_bind; [|intros _; apply keeps_bind; [apply keeps_get|intros; apply keeps_ret]].
  destruct (bool_decide _); [apply keeps_ret|].
  apply keeps_bind; [apply keeps_lift|]. intros [user q].
  apply keeps_bind; [apply keeps_modify; intros s; by repeat split|]. intros _.
  apply keeps_bind; [apply keeps_deref|]. intros u.
  apply keeps_modify. intros s. by repeat split.
Qed.

Lemma keeps_attach_disposition code num ti gh :
  keeps (attach_disposition code num ti gh).
Proof.
  unfold attach_disposition. apply keeps_bind; [apply keeps_get_or_create|].
  intros l. repeat (apply keeps_bind; [apply keeps_values_setitem|intros _]).
  apply keeps_ret.
Qed.

(** What a [verdict] request does to the coordinator: nothing, unless the
    code is known and no worker owns the lock; then it appends one record to
    the Dispatch Queue and notifies. *)
Lemma verdict_coord c code num s s' :
  handle (verdict c code num) s = Some s' ->
  coord_eq s s' \/
  (known_code code = true /\ lock s = None /\
   exists s1 user, coord_eq s s1 /\
     coord_eq (notify (set_to_respond_queue (fun q => deque.append q user) s1)) s').
Proof.
  unfold handle, verdict.
  destruct (known_code code) eqn:Hcode.
  - destruct (known_code_instructions _ Hcode) as (text & flag & ->). cbn [is_None].
    unfold mbind, M_bind, modify, mret, M_ret. cbn beta iota.
    pose proof (keeps_attach_disposition code num (VStr text) (VBool flag)
                  (set_session c empty_session s)) as Hk.
    destruct (attach_disposition _ _ _ _ _) as [user s1|e s1|].
    + unfold enqueue. destruct (lock s1) eqn:Hl; [discriminate|].
      unfold users_delete, modify. intros [= <-]. right.
      split; [reflexivity|]. split.
      { destruct Hk as (_ & Hk & _). cbn in Hk. congruence. }
      exists s1, user. split; [|by repeat split].
      eapply coord_eq_trans; [|exact Hk]. by repeat split.
    + intros [= <-]. left. eapply coord_eq_trans; [|exact Hk]. by repeat split.
    + discriminate.
  - rewrite (unknown_code_instructions _ Hcode). cbn [is_None].
    unfold mbind, M_bind, modify, users_getitem, mret, M_ret. cbn beta iota.
    cbn [users set_session].
    destruct (users s !! num); intros [= <-]; left; by repeat split.
Qed.

(** ** The coordinator's invariant *)

Lemma lock_inv_ext s s' :
  lock s' = lock s -> waiters s' = waiters s -> pcs s' = pcs s ->
  lock_inv s -> lock_inv s'.
Proof.
  intros Hl Hw Hp [H1 H2 H3]. split.
  - intros t. rewrite Hl, Hp. apply H1.
  - intros t. rewrite Hw, Hp. apply H2.
  - by rewrite Hw.
Qed.

Lemma lock_inv_coord s s' : coord_eq s s' -> lock_inv s -> lock_inv s'.
Proof. intros (_ & Hl & Hw & Hp & _). by apply lock_inv_ext. Qed.

Lemma lock_inv_init cfg n : lock_inv (init_state cfg n).
Proof.
  split; cbn [init_state lock waiters pcs].
  - intros t. split; [discriminate|].
    intros (pc & Hpc & Hh). apply lookup_replicate in Hpc as [-> _]. discriminate.
  - intros t Ht. by apply elem_of_nil in Ht.
  - apply NoDup_nil_2.
Qed.

(** Worker [t] moves from [pc] to [pc'] without suspending: it enters the
    [with] block when the lock is free, stays inside, or leaves it. *)
Lemma lock_inv_move s s' t pc pc' :
  lock_inv s -> pcs s !! t = Some pc -> pc <> WWait ->
  holds_lock pc = true \/ lock s = None ->
  waiters s' = waiters s -> pcs s' = <[t := pc']> (pcs s) ->
  lock s' = (if holds_lock pc' then Some t else None) ->
  lock_inv s'.
Proof.
  intros [H1 H2 H3] Hpc Hnw Hfree Hw Hp Hl.
  assert (Hlt : t < length (pcs s)) by by eapply lookup_lt_Some.
  assert (Hother : forall t0 pc0, t0 <> t -> pcs s !! t0 = Some pc0 ->
                     holds_lock pc0 = true -> False).
  { intros t0 pc0 Hne Hpc0 Hh0.
    assert (Hl0 : lock s = Some t0) by (apply H1; eauto).
    destruct Hfree as [Hh|Hnone]; [|congruence].
    assert (lock s = Some t) by (apply H1; eauto). congruence. }
  split.
  - intros t0. rewrite Hl, Hp. split.
    + destruct (holds_lock pc') eqn:Hh; [|discriminate]. intros [= <-].
      exists pc'. split; [by apply list_lookup_insert_eq | exact Hh].
    + intros (pc0 & Hpc0 & Hh0). destruct (decide (t0 = t)) as [->|Hne].
      * rewrite list_lookup_insert_eq in Hpc0 by exact Hlt.
        injection Hpc0 as <-. by rewrite Hh0.
      * rewrite list_lookup_insert_ne in Hpc0 by congruence.
        exfalso. eauto.
  - intros t0. rewrite Hw, Hp. intros Hin. specialize (H2 _ Hin).
    destruct (decide (t0 = t)) as [->|Hne]; [congruence|].
    by rewrite list_lookup_insert_ne by congruence.
  - by rewrite Hw.
Qed.

(** Worker [t] calls [wait()] from inside its [with] block. *)
Lemma lock_inv_wait s t pc :
  lock_inv s -> pcs s !! t = Some pc -> holds_lock pc = true ->
  lock_inv (wait t s).
Proof.
  intros [H1 H2 H3] Hpc Hh.
  assert (Hlt : t < length (pcs s)) by by eapply lookup_lt_Some.
  assert (Hown : lock s = Some t) by (apply H1; eauto).
  assert (Hnw : t ∉ waiters s).
  { intros Hin. specialize (H2 _ Hin). rewrite Hpc in H2. injection H2 as ->. discriminate. }
  split; cbn [wait lock waiters pcs set_pc set_waiters set_lock].
  - intros t0. split; [discriminate|].
    intros (pc0 & Hpc0 & Hh0). exfalso. destruct (decide (t0 = t)) as [->|Hne].
    + rewrite list_lookup_insert_eq in Hpc0 by exact Hlt. injection Hpc0 as <-. discriminate.
    + rewrite list_lookup_insert_ne in Hpc0 by congruence.
      assert (lock s = Some t0) by (apply H1; eauto). congruence.
  - intros t0 Hin. apply elem_of_app in Hin as [Hin|Hin].
    + destruct (decide (t0 = t)) as [->|Hne]; [done|].
      rewrite list_lookup_insert_ne by congruence. by apply H2.
    + apply list_elem_of_singleton in Hin as ->. by apply list_lookup_insert_eq.
  - apply NoDup_app. split; [exact H3|]. split; [|apply NoDup_singleton].
    intros t0 Hin Hin'. apply list_elem_of_singleton in Hin' as ->. done.
Qed.

Lemma lock_inv_notify s : lock_inv s -> lock_inv (notify s).
Proof.
  intros Hinv. unfold notify. destruct (waiters s) as [|t ws] eqn:Hw; [exact Hinv|].
  destruct Hinv as [H1 H2 H3].
  assert (Hpc : pcs s !! t = Some WWait) by (apply H2; rewrite Hw; left).
  assert (Hlt : t < length (pcs s)) by by eapply lookup_lt_Some.
  rewrite Hw in H3. apply NoDup_cons in H3 as [Hnin Hnd].
  split; cbn [lock waiters pcs set_pc set_waiters].
  - intros t0. rewrite H1. split; intros (pc0 & Hpc0 & Hh0).
    + exists pc0. split; [|exact Hh0].
      rewrite list_lookup_insert_ne; [exact Hpc0|].
      intros ->. rewrite Hpc in Hpc0. injection Hpc0 as <-. discriminate.
    + destruct (decide (t0 = t)) as [->|Hne].
      * rewrite list_lookup_insert_eq in Hpc0 by exact Hlt. injection Hpc0 as <-. discriminate.
      * rewrite list_lookup_insert_ne in Hpc0 by congruence. eauto.
  - intros t0 Hin. rewrite list_lookup_insert_ne.
    + apply H2. rewrite Hw. by right.
    + intros ->. done.
  - exact Hnd.
Qed.

Lemma lock_inv_do_work t E s s' :
  lock_inv s -> do_work t E s = Some s' -> lock_inv s'.
Proof.
  intros Hinv. unfold do_work.
  destruct (pcs s !! t) as [pc|] eqn:Hpc; [|discriminate]. cbn [mbind option_bind].
  destruct pc.
  - destruct (lock s) eqn:Hl; [discriminate|]. intros [= <-].
    eapply (lock_inv_move s _ t WTop WLocked); eauto; done.
  - destruct (deque.popleft (to_respond_queue s)) as [[user q]|e]; intros [= <-].
    + eapply (lock_inv_move s _ t WLocked (WPipe user)); eauto; try done.
      cbn. apply (inv_owner s Hinv). eauto.
    + by eapply lock_inv_wait.
  - destruct (heap s !! user) as [u|]; [|intros [= <-]; by eapply lock_inv_wait].
    destruct (inner_pass (config s) E (values u)); intros [= <-].
    + eapply (lock_inv_move s _ t (WPipe user) WTop); eauto; done.
    + eapply (lock_inv_move s _ t (WPipe user) (WSleep user)); eauto; try done.
      cbn. apply (inv_owner s Hinv). eauto.
    + by eapply lock_inv_wait.
  - intros [= <-].
    eapply (lock_inv_move s _ t (WSleep user) (WPipe user)); eauto; try done.
    cbn. apply (inv_owner s Hinv). eauto.
  - discriminate.
  - destruct (lock s) eqn:Hl; [discriminate|]. intros [= <-].
    eapply (lock_inv_move s _ t WNotified WResumed); eauto; done.
  - intros [= <-].
    eapply (lock_inv_move s _ t WResumed WTop); eauto; done.
Qed.

Lemma lock_inv_step l s s' : lock_inv s -> step l s = Some s' -> lock_inv s'.
Proof.
  intros Hinv. destruct l as [t E|engine From Body|c|c code num]; cbn [step].
  - by apply lock_inv_do_work.
  - unfold handle. pose proof (keeps_sms engine From Body s) as Hk.
    destruct (sms engine From Body s); [| |discriminate];
      intros [= <-]; by eapply lock_inv_coord.
  - unfold handle. pose proof (keeps_triaging c s) as Hk.
    destruct (triaging c s); [| |discriminate];
      intros [= <-]; by eapply lock_inv_coord.
  - intros H. apply verdict_coord in H as [H|(_ & _ & s1 & user & H1 & H2)].
    + by eapply lock_inv_coord.
    + eapply lock_inv_coord; [exact H2|]. apply lock_inv_notify.
      apply (lock_inv_ext s1); [reflexivity..|]. by eapply lock_inv_coord.
Qed.

Lemma lock_inv_run ls s s' : lock_inv s -> run ls s = Some s' -> lock_inv s'.
Proof.
  revert s. induction ls as [|l ls IH]; intros s Hinv; cbn [run].
  - by intros [= <-].
  - destruct (step l s) as [s1|] eqn:Hs; [|discriminate].
    apply IH. by eapply lock_inv_step.
Qed.

Lemma lock_inv_reachable s : reachable s -> lock_inv s.
Proof.
  intros (cfg & n & ls & Hrun). eapply lock_inv_run; [apply lock_inv_init | exact Hrun].
Qed.

(** ** The worker, step by step *)

Lemma inner_pass_Ok cfg E vals body to :
  pipeline cfg E vals = Ok (body, to) ->
  inner_pass cfg E vals = PassBreak [ESent (twilio_number cfg) body to].
Proof. unfold inner_pass. intros ->. reflexivity. Qed.

Lemma inner_pass_ValueError cfg E vals m :
  pipeline cfg E vals = Raise (ValueError m) ->
  inner_pass cfg E vals = PassSleep [EStderr ("Error: " +:+ m)].
Proof. unfold inner_pass. intros ->. reflexivity. Qed.

(** Any other exception leaves the inner loop: a [KeyError] reaches its
    clause, whose [ke.with_traceback()] raises a [TypeError] before anything
    is printed; the rest is caught by neither clause. *)
Lemma inner_pass_other cfg E vals e :
  pipeline cfg E vals = Raise e -> is_ValueError e = false ->
  exists e', inner_pass cfg E vals = PassRaise e' /\
    (is_KeyError e = true -> exists m, e' = TypeError m) /\
    (is_KeyError e = false -> e' = e).
Proof.
  unfold inner_pass. intros -> Hv.
  destruct e; try discriminate; eexists; (split; [reflexivity|]);
    split; try discriminate; eauto.
Qed.

Lemma do_work_pass t E s user u :
  pcs s !! t = Some (WPipe user) -> heap s !! user = Some u ->
  do_work t E s =
  Some match inner_pass (config s) E (values u) with
       | PassBreak evs => set_pc t WTop (set_lock None (emit evs s))
       | PassSleep evs => set_pc t (WSleep user) (emit evs s)
       | PassRaise _ => wait t s
       end.
Proof.
  intros Hpc Hu. unfold do_work. rewrite Hpc. cbn [mbind option_bind]. rewrite Hu.
  destruct (inner_pass _ _ _); reflexivity.
Qed.

Lemma do_work_suspended t E s : pcs s !! t = Some WWait -> do_work t E s = None.
Proof. intros Hpc. unfold do_work. rewrite Hpc. reflexivity. Qed.

(** A step of worker [t] changes no program point but its own. *)
Lemma do_work_pcs t E s s' :
  do_work t E s = Some s' -> exists pc', pcs s' = <[t := pc']> (pcs s).
Proof.
  unfold do_work. destruct (pcs s !! t) as [pc|]; [|discriminate].
  cbn [mbind option_bind].
  repeat case_match; intros [= <-]; eexists; reflexivity.
Qed.

(** While a worker owns the lock, a worker outside its [with] block cannot
    take a step. *)
Lemma blocked_while_owned s t t' E :
  lock s = Some t ->
  (forall pc, pcs s !! t' = Some pc -> holds_lock pc = false) ->
  do_work t' E s = None.
Proof.
  intros Hl Hpc. unfold do_work.
  destruct (pcs s !! t') as [pc|]; [|reflexivity]. cbn [mbind option_bind].
  specialize (Hpc pc eq_refl). rewrite Hl. destruct pc; try discriminate; reflexivity.
Qed.

Lemma emit_emit evs1 evs2 s : emit evs2 (emit evs1 s) = emit (evs1 ++ evs2) s.
Proof. unfold emit. cbn. by rewrite app_assoc. Qed.

(** One failing pass and the sleep after it bring the worker back to the top
    of the inner loop, with one line printed and one second slept. *)
Lemma retry_once t E s user u m :
  pcs s !! t = Some (WPipe user) -> heap s !! user = Some u ->
  pipeline (config s) E (values u) = Raise (ValueError m) ->
  run [LWorker t E; LWorker t E] s =
  Some (emit [EStderr ("Error: " +:+ m); ESleep 1] s).
Proof.
  intros Hpc Hu Hp. cbn [run step].
  rewrite (do_work_pass t E s user u Hpc Hu), (inner_pass_ValueError _ _ _ _ Hp).
  assert (Hlt : t < length (pcs s)) by by eapply lookup_lt_Some.
  unfold do_work. cbn [pcs set_pc emit].
  rewrite list_lookup_insert_eq by exact Hlt. cbn [mbind option_bind].
  f_equal. destruct s. unfold set_pc, emit. cbn in *.
  rewrite list_insert_insert_eq, list_insert_id by exact Hpc.
  by rewrite <- app_assoc.
Qed.

Lemma retry_labels_cons t E Es :
  retry_labels t (E :: Es) = LWorker t E :: LWorker t E :: retry_labels t Es.
Proof. reflexivity. Qed.

Lemma run_app ls1 ls2 s :
  run (ls1 ++ ls2) s = run ls1 s ≫= run ls2.
Proof.
  revert s. induction ls1 as [|l ls1 IH]; intros s; cbn [run app]; [reflexivity|].
  destruct (step l s); [apply IH | reflexivity].
Qed.

(** The shape of what is printed and slept over [k] failing passes. *)
Lemma retry_events_shape cfg vals Es :
  Forall (fun E => exists m, pipeline cfg E vals = Raise (ValueError m)) Es ->
  exists msgs, length msgs = length Es /\
    retry_events cfg vals Es =
    msgs ≫= (fun m => [EStderr ("Error: " +:+ m); ESleep 1]).
Proof.
  induction 1 as [|E Es [m Hm] _ (msgs & Hlen & IH)].
  - by exists [].
  - exists (m :: msgs). split; [cbn; by rewrite Hlen|].
    unfold retry_events in *. cbn [mbind list_bind]. rewrite Hm.
    cbn. f_equal. f_equal. exact IH.
Qed.

Lemma retry_run t Es s user u :
  pcs s !! t = Some (WPipe user) -> heap s !! user = Some u ->
  Forall (fun E => exists m, pipeline (config s) E (values u) = Raise (ValueError m)) Es ->
  run (retry_labels t Es) s = Some (emit (retry_events (config s) (values u) Es) s).
Proof.
  intros Hpc Hu HEs. revert s Hpc Hu HEs.
  induction Es as [|E Es IH]; intros s Hpc Hu HEs.
  - cbn. f_equal. destruct s. unfold emit. cbn. by rewrite app_nil_r.
  - apply Forall_cons in HEs as [[m Hm] HEs].
    rewrite retry_labels_cons.
    change (LWorker t E :: LWorker t E :: retry_labels t Es)
      with ([LWorker t E; LWorker t E] ++ retry_labels t Es).
    rewrite run_app, (retry_once t E s user u m Hpc Hu Hm). cbn [mbind option_bind].
    rewrite IH by assumption. rewrite emit_emit. f_equal. f_equal.
    unfold retry_events. cbn [mbind list_bind]. rewrite Hm. reflexivity.
Qed.

(** ** Transient failures: retry in place *)

(** C5: while the lookup or the notifier fails a pass with a [ValueError],
    the worker prints the failure, sleeps one second and runs the pipeline
    again from its first line; over any number of such passes the record is
    not put back in the Dispatch Queue, no other worker's program point
    changes, the worker still holds the same record, and the first pass that
    succeeds sends the message and ends the inner loop.  There is no cap:
    the list of failing passes is arbitrary. *)
Theorem transient_failure_retries_in_place s t user u Es :
  pcs s !! t = Some (WPipe user) -> heap s !! user = Some u ->
  Forall (fun E => exists m, pipeline (config s) E (values u) = Raise (ValueError m)) Es ->
  (forall E m, pipeline (config s) E (values u) = Raise (ValueError m) ->
     exists s1,
       do_work t E s = Some s1 /\
       trace s1 = trace s ++ [EStderr ("Error: " +:+ m)] /\
       pcs s1 !! t = Some (WSleep user) /\
       to_respond_queue s1 = to_respond_queue s /\
       forall E', exists s2,
         do_work t E' s1 = Some s2 /\
         trace s2 = trace s1 ++ [ESleep 1] /\
         pcs s2 = pcs s /\ to_respond_queue s2 = to_respond_queue s) /\
  (exists s' msgs,
     run (retry_labels t Es) s = Some s' /\
     length msgs = length Es /\
     trace s' = trace s ++ (msgs ≫= fun m => [EStderr ("Error: " +:+ m); ESleep 1]) /\
     pcs s' = pcs s /\ to_respond_queue s' = to_respond_queue s /\
     user_queue s' = user_queue s /\ heap s' = heap s /\ lock s' = lock s /\
     forall Eok body to,
       pipeline (config s) Eok (values u) = Ok (body, to) ->
       exists s'',
         do_work t Eok s' = Some s'' /\
         trace s'' = trace s' ++ [ESent (twilio_number (config s)) body to] /\
         pcs s'' !! t = Some WTop /\ lock s'' = None /\
         to_respond_queue s'' = to_respond_queue s).
Proof.
  intros Hpc Hu HEs.
  assert (Hlt : t < length (pcs s)) by by eapply lookup_lt_Some.
  split.
  - intros E m Hm. eexists. split.
    { rewrite (do_work_pass t E s user u Hpc Hu), (inner_pass_ValueError _ _ _ _ Hm).
      reflexivity. }
    cbn [trace pcs to_respond_queue set_pc emit].
    split; [reflexivity|]. split; [by apply list_lookup_insert_eq|].
    split; [reflexivity|]. intros E'. eexists. split.
    { unfold do_work. cbn [pcs set_pc emit].
      rewrite list_lookup_insert_eq by exact Hlt. reflexivity. }
    cbn [trace pcs to_respond_queue set_pc emit].
    split; [reflexivity|]. split; [|reflexivity].
    rewrite list_insert_insert_eq. by apply list_insert_id.
  - destruct (retry_events_shape _ _ _ HEs) as (msgs & Hlen & Hshape).
    exists (emit (retry_events (config s) (values u) Es) s), msgs.
    split; [by apply (retry_run t Es s user u)|]. split; [exact Hlen|].
    cbn [trace pcs to_respond_queue user_queue heap lock emit]. rewrite Hshape.
    repeat (split; [reflexivity|]).
    intros Eok body to Hok. eexists. split.
    { rewrite (do_work_pass t Eok _ user u) by (cbn; assumption).
      cbn [config emit]. rewrite (inner_pass_Ok _ _ _ _ _ Hok). reflexivity. }
    cbn [trace pcs to_respond_queue lock set_pc set_lock emit].
    split; [reflexivity|]. split; [by apply list_lookup_insert_eq|].
    split; reflexivity.
Qed.

(** ** Exceptions that reach the bare [except] *)

(** C9: when a pass of the pipeline raises anything but a [ValueError] (a
    [KeyError] included, because its clause raises a [TypeError] from
    [ke.with_traceback()] with no argument), the bare [except] runs
    [wait()]: nothing is printed or sent, the record is dropped (it is in no
    queue and no worker holds it), and the worker is suspended, whatever
    the Dispatch Queue contains; only a dispatching [verdict], through its
    [notify()], makes it leave [wait()]. *)
Theorem other_exception_suspends_worker s t E user u e :
  pcs s !! t = Some (WPipe user) -> heap s !! user = Some u ->
  pipeline (config s) E (values u) = Raise e -> is_ValueError e = false ->
  (exists e', inner_pass (config s) E (values u) = PassRaise e' /\
     (is_KeyError e = true -> exists m, e' = TypeError m) /\
     (is_KeyError e = false -> e' = e)) /\
  do_work t E s = Some (wait t s) /\
  trace (wait t s) = trace s /\
  to_respond_queue (wait t s) = to_respond_queue s /\
  user_queue (wait t s) = user_queue s /\
  lock (wait t s) = None /\
  pcs (wait t s) = <[t := WWait]> (pcs s) /\
  pcs (wait t s) !! t = Some WWait /\
  t ∈ waiters (wait t s) /\
  (forall E', do_work t E' (wait t s) = None) /\
  (forall s1 l s2,
     pcs s1 !! t = Some WWait -> step l s1 = Some s2 ->
     pcs s2 !! t <> Some WWait ->
     pcs s2 !! t = Some WNotified /\
     exists c code num, l = LVerdict c code num /\ known_code code = true).
Proof.
  intros Hpc Hu He Hv.
  assert (Hlt : t < length (pcs s)) by by eapply lookup_lt_Some.
  destruct (inner_pass_other _ _ _ _ He Hv) as (e' & Hpass & Hk).
  split; [eauto|].
  split.
  { rewrite (do_work_pass t E s user u Hpc Hu), Hpass. reflexivity. }
  cbn [wait trace to_respond_queue user_queue lock pcs waiters set_pc set_waiters set_lock].
  repeat (split; [reflexivity|]).
  split; [by apply list_lookup_insert_eq|].
  split; [apply elem_of_app; right; by apply list_elem_of_singleton|].
  split.
  { intros E'. apply do_work_suspended. cbn. by apply list_lookup_insert_eq. }
  intros s1 l s2 Hw Hstep Hnw.
  destruct l as [t' E'|engine From Body|c|c code num]; cbn [step] in Hstep.
  - exfalso. destruct (decide (t' = t)) as [->|Hne].
    + by rewrite do_work_suspended in Hstep.
    + apply do_work_pcs in Hstep as [pc' Hp]. rewrite Hp in Hnw.
      rewrite list_lookup_insert_ne in Hnw by exact Hne. done.
  - exfalso. unfold handle in Hstep. pose proof (keeps_sms engine From Body s1) as Hkp.
    destruct (sms engine From Body s1); [| |discriminate];
      injection Hstep as <-; destruct Hkp as (_ & _ & _ & Hp & _); congruence.
  - exfalso. unfold handle in Hstep. pose proof (keeps_triaging c s1) as Hkp.
    destruct (triaging c s1); [| |discriminate];
      injection Hstep as <-; destruct Hkp as (_ & _ & _ & Hp & _); congruence.
  - apply verdict_coord in Hstep as [Hc|(Hcode & _ & s1' & user' & Hc1 & Hc2)].
    { exfalso. destruct Hc as (_ & _ & _ & Hp & _). congruence. }
    split; [|eauto].
    destruct Hc1 as (_ & _ & Hw1 & Hp1 & _). destruct Hc2 as (_ & _ & _ & Hp2 & _).
    rewrite Hp2 in Hnw |- *. unfold notify in Hnw |- *.
    cbn [waiters set_to_respond_queue] in Hnw |- *.
    destruct (waiters s1') as [|t0 ws].
    { exfalso. cbn in Hnw. congruence. }
    cbn [pcs set_pc set_waiters set_to_respond_queue] in Hnw |- *.
    rewrite Hp1 in Hnw |- *.
    destruct (decide (t0 = t)) as [->|Hne].
    + apply list_lookup_insert_eq. by eapply lookup_lt_Some.
    + exfalso. rewrite list_lookup_insert_ne in Hnw by exact Hne. done.
Qed.

Lemma transient_failure_retries_in_place_witness :
  exists s',
    run (retry_labels 0 [ext_busy; ext_busy; ext_busy]) st_working = Some s' /\
    trace s' = [EStderr "Error: rejected"; ESleep 1;
                EStderr "Error: rejected"; ESleep 1;
                EStderr "Error: rejected"; ESleep 1] /\
    pcs s' = [WPipe 0; WTop] /\ to_respond_queue s' = [1] /\
    exists s'',
      do_work 0 ext_ok s' = Some s'' /\ pcs s'' = [WTop; WTop] /\
      to_respond_queue s'' = [1].
Proof.
  destruct (transient_failure_retries_in_place st_working 0 0 alice_dispatched
              [ext_busy; ext_busy; ext_busy])
    as [_ (s' & msgs & Hrun & Hlen & Htr & Hpcs & Hq & _ & _ & _ & Hok)].
  { vm_compute. reflexivity. }
  { vm_compute. reflexivity. }
  { repeat constructor; exists "rejected"; vm_compute; reflexivity. }
  exists s'. split; [exact Hrun|].
  assert (Hs' : s' = emit (retry_events sample_config (values alice_dispatched)
                             [ext_busy; ext_busy; ext_busy]) st_working).
  { rewrite (retry_run 0 [ext_busy; ext_busy; ext_busy] st_working 0 alice_dispatched)
      in Hrun.
    - by injection Hrun.
    - vm_compute. reflexivity.
    - vm_compute. reflexivity.
    - repeat constructor; exists "rejected"; vm_compute; reflexivity. }
  split; [rewrite Hs'; vm_compute; reflexivity|].
  split; [rewrite Hpcs; vm_compute; reflexivity|].
  split; [rewrite Hq; vm_compute; reflexivity|].
  destruct (Hok ext_ok (VStr "Stay at home, rest, and take medication as necessary")
              (VStr "+15550001")) as (s'' & Hdo & _ & _ & _ & Hq'').
  { vm_compute. reflexivity. }
  exists s''. split; [exact Hdo|]. split.
  - rewrite Hs' in Hdo. vm_compute in Hdo. injection Hdo as <-. reflexivity.
  - rewrite Hq''. vm_compute. reflexivity.
Defined.

Lemma other_exception_suspends_worker_witness :
  do_work 0 ext_ok st_missing = Some (wait 0 st_missing) /\
  trace (wait 0 st_missing) = [] /\
  to_respond_queue (wait 0 st_missing) = [1] /\
  pcs (wait 0 st_missing) = [WWait; WTop] /\
  forall E', do_work 0 E' (wait 0 st_missing) = None.
Proof.
  destruct (other_exception_suspends_worker st_missing 0 ext_ok 0
              {| uuid := alice;
                 values := with_disposition ∅ (VStr "+15550001") (VStr "LEVEL 1")
                   (VStr "Please seek Triage Level 1 assistance; you will be provided with a list of nearby hospitals/clinics:")
                   (VBool true) |}
              (KeyError "zip_code"))
    as (_ & Hdo & Htr & Hq & _ & _ & Hpcs & _ & _ & Hblocked & _).
  { vm_compute. reflexivity. }
  { vm_compute. reflexivity. }
  { vm_compute. reflexivity. }
  { reflexivity. }
  split; [exact Hdo|]. split; [rewrite Htr; vm_compute; reflexivity|].
  split; [rewrite Hq; vm_compute; reflexivity|].
  split; [rewrite Hpcs; vm_compute; reflexivity|exact Hblocked].
Defined.

(** ** Missing data *)

(** C3 on the code: a record dispatched to level 1 care without a zip code
    makes the pipeline raise [KeyError('zip_code')]; the clause for it never
    prints (its argument raises first) and never reaches its [break]; the
    worker ends up suspended in [wait()] with the lock released, nothing
    printed and nothing sent, although a record is waiting in the queue. *)
Lemma missing_zip_code_suspends_worker :
  exists s u,
    run (dispatch_without_zip ++ [LWorker 0 ext_ok; LWorker 0 ext_ok; LWorker 0 ext_ok])
      (init_state sample_config 2) = Some s /\
    heap s !! 0 = Some u /\
    pipeline sample_config ext_ok (values u) = Raise (KeyError "zip_code") /\
    inner_pass sample_config ext_ok (values u) =
      PassRaise (TypeError "BaseException.with_traceback() takes exactly one argument") /\
    pcs s = [WWait; WTop] /\ waiters s = [0] /\ lock s = None /\
    trace s = [] /\ to_respond_queue s = [1] /\
    forall E, do_work 0 E s = None.
Proof.
  eexists _, _. split; [vm_compute; reflexivity|].
  split; [vm_compute; reflexivity|].
  split; [vm_compute; reflexivity|].
  split; [vm_compute; reflexivity|].
  repeat (split; [vm_compute; reflexivity|]).
  intros E. reflexivity.
Qed.

(** ** States passed through while retrying *)

Lemma frame_eq_refl s : frame_eq s s.
Proof. by repeat split. Qed.

Lemma frame_eq_trans s1 s2 s3 : frame_eq s1 s2 -> frame_eq s2 s3 -> frame_eq s1 s3.
Proof.
  unfold frame_eq. intros (?&?&?&?&?&?&?&?) (?&?&?&?&?&?&?&?).
  repeat split; congruence.
Qed.

(** Every state the worker passes through while it retries differs from the
    first one only in the output and in the worker's own program point,
    which stays inside the pipeline. *)
Lemma retry_prefix t Es s user u n si :
  pcs s !! t = Some (WPipe user) -> heap s !! user = Some u ->
  Forall (fun E => exists m, pipeline (config s) E (values u) = Raise (ValueError m)) Es ->
  run (take n (retry_labels t Es)) s = Some si ->
  frame_eq s si /\
  exists pc, in_pipeline pc = true /\ pcs si = <[t := pc]> (pcs s).
Proof.
  intros Hpc Hu HEs. revert s n Hpc Hu HEs.
  induction Es as [|E Es IH]; intros s n Hpc Hu HEs Hrun.
  - cbn in Hrun. rewrite take_nil in Hrun. injection Hrun as <-.
    split; [apply frame_eq_refl|]. exists (WPipe user).
    split; [reflexivity|]. symmetry. by apply list_insert_id.
  - apply Forall_cons in HEs as [[m Hm] HEs]. rewrite retry_labels_cons in Hrun.
    destruct n as [|[|n]].
    + cbn in Hrun. injection Hrun as <-.
      split; [apply frame_eq_refl|]. exists (WPipe user).
      split; [reflexivity|]. symmetry. by apply list_insert_id.
    + cbn [take run step] in Hrun.
      rewrite (do_work_pass t E s user u Hpc Hu), (inner_pass_ValueError _ _ _ _ Hm) in Hrun.
      injection Hrun as <-. split; [by repeat split|].
      exists (WSleep user). split; reflexivity.
    + change (take (S (S n)) (LWorker t E :: LWorker t E :: retry_labels t Es))
        with ([LWorker t E; LWorker t E] ++ take n (retry_labels t Es)) in Hrun.
      rewrite run_app, (retry_once t E s user u m Hpc Hu Hm) in Hrun.
      cbn [mbind option_bind] in Hrun.
      apply IH in Hrun as (Hf & pc & Hin & Hp); try assumption.
      split; [|by exists pc].
      eapply frame_eq_trans; [|exact Hf]. by repeat split.
Qed.

(** ** The scope of the lock *)

(** C1, as stated, fails: after worker 0 has removed the head record it
    still owns the lock, and the notification is sent in a step that starts
    with the lock owned; the lock is released only once the pipeline is
    over. *)
Lemma lock_owned_during_pipeline :
  exists s body to s',
    run (dispatch_two ++ [LWorker 0 ext_ok; LWorker 0 ext_ok])
      (init_state sample_config 2) = Some s /\
    pcs s !! 0 = Some (WPipe 0) /\ lock s = Some 0 /\
    do_work 0 ext_ok s = Some s' /\
    trace s' = trace s ++ [ESent "+15550100" body to] /\
    lock s' = None.
Proof.
  eexists _, _, _, _. split; [vm_compute; reflexivity|].
  split; [reflexivity|]. split; [reflexivity|].
  split; [vm_compute; reflexivity|]. split; reflexivity.
Qed.

(** C1, amended: in every reachable state a worker owns the lock exactly
    while it is inside its [with] block, that is from before the [popleft]
    through every pass of the follow-up pipeline and the sleeps between
    them; with an empty queue the worker releases the lock and is suspended
    until notified, then re-acquires it, leaves the block and starts over at
    the top, where it acquires the lock and checks the queue again. *)
Theorem lock_scope_of_do_work s :
  reachable s ->
  (forall t pc, pcs s !! t = Some pc -> (lock s = Some t <-> holds_lock pc = true)) /\
  (forall t pc, pcs s !! t = Some pc -> in_pipeline pc = true -> lock s = Some t) /\
  (forall t E, pcs s !! t = Some WLocked -> to_respond_queue s = [] ->
     do_work t E s = Some (wait t s) /\ lock (wait t s) = None /\
     pcs (wait t s) !! t = Some WWait /\
     forall E', do_work t E' (wait t s) = None) /\
  (forall t E, pcs s !! t = Some WNotified -> lock s = None ->
     exists s1 s2 s3,
       do_work t E s = Some s1 /\ lock s1 = Some t /\
       do_work t E s1 = Some s2 /\ lock s2 = None /\ pcs s2 !! t = Some WTop /\
       do_work t E s2 = Some s3 /\ lock s3 = Some t /\ pcs s3 !! t = Some WLocked /\
       to_respond_queue s3 = to_respond_queue s) /\
  (forall t E user q, pcs s !! t = Some WLocked -> to_respond_queue s = user :: q ->
     exists s1,
       do_work t E s = Some s1 /\ pcs s1 !! t = Some (WPipe user) /\
       to_respond_queue s1 = q /\ lock s1 = Some t).
Proof.
  intros Hreach. pose proof (lock_inv_reachable s Hreach) as Hinv.
  assert (Howner : forall t pc, pcs s !! t = Some pc ->
            (lock s = Some t <-> holds_lock pc = true)).
  { intros t pc Hpc. rewrite (inv_owner s Hinv). split.
    - intros (pc' & Hpc' & Hh). congruence.
    - eauto. }
  split; [exact Howner|]. split.
  { intros t pc Hpc Hin. apply (Howner t pc Hpc). by destruct pc. }
  split.
  { intros t E Hpc Hq.
    assert (Hlt : t < length (pcs s)) by by eapply lookup_lt_Some.
    split.
    { unfold do_work. rewrite Hpc. cbn [mbind option_bind]. rewrite Hq. reflexivity. }
    split; [reflexivity|].
    assert (Hw : pcs (wait t s) !! t = Some WWait) by (cbn; by apply list_lookup_insert_eq).
    split; [exact Hw|]. intros E'. by apply do_work_suspended. }
  split.
  { intros t E Hpc Hl.
    assert (Hlt : t < length (pcs s)) by by eapply lookup_lt_Some.
    eexists _, _, _. split.
    { unfold do_work. rewrite Hpc. cbn [mbind option_bind]. rewrite Hl. reflexivity. }
    split; [reflexivity|]. split.
    { unfold do_work. cbn [pcs set_pc set_lock].
      rewrite list_lookup_insert_eq by exact Hlt. reflexivity. }
    split; [reflexivity|]. split.
    { cbn. apply list_lookup_insert_eq. by rewrite length_insert. }
    split.
    { unfold do_work. cbn [pcs lock set_pc set_lock].
      rewrite list_lookup_insert_eq by (by rewrite length_insert). reflexivity. }
    split; [reflexivity|]. split; [|reflexivity].
    cbn. apply list_lookup_insert_eq. by rewrite !length_insert. }
  intros t E user q Hpc Hq.
  assert (Hlt : t < length (pcs s)) by by eapply lookup_lt_Some.
  eexists. split.
  { unfold do_work. rewrite Hpc. cbn [mbind option_bind]. rewrite Hq. reflexivity. }
  split; [cbn; by apply list_lookup_insert_eq|]. split; [reflexivity|].
  cbn. by apply (Howner t WLocked Hpc).
Qed.

Lemma lock_scope_of_do_work_witness :
  lock st_working = Some 0 /\
  (forall t pc, pcs st_working !! t = Some pc ->
     (lock st_working = Some t <-> holds_lock pc = true)).
Proof.
  assert (Hreach : reachable st_working).
  { exists sample_config, 2, (dispatch_two ++ [LWorker 0 ext_ok; LWorker 0 ext_ok]).
    vm_compute. reflexivity. }
  pose proof (lock_scope_of_do_work st_working Hreach) as (H1 & H2 & _).
  split; [|exact H1].
  apply (H2 0 (WPipe 0)); vm_compute; reflexivity.
Defined.

(** ** Progress of the other workers during a retry *)

(** C2, as stated, fails: while worker 0 sleeps between two passes on
    Alice's record it owns the lock; Bob's record is in the Dispatch Queue
    and worker 1 is idle at the top of its loop, yet worker 1 cannot take a
    step, whatever the collaborators would answer: Bob's record waits for
    the end of the retries. *)
Lemma retry_blocks_other_worker :
  exists s,
    run (dispatch_two ++ [LWorker 0 ext_ok; LWorker 0 ext_ok; LWorker 0 ext_busy])
      (init_state sample_config 2) = Some s /\
    pcs s = [WSleep 0; WTop] /\ lock s = Some 0 /\
    to_respond_queue s = [1] /\
    trace s = [EStderr "Error: rejected"] /\
    forall E, do_work 1 E s = None.
Proof.
  eexists. split; [vm_compute; reflexivity|].
  repeat (split; [vm_compute; reflexivity|]).
  intros E. reflexivity.
Qed.

(** C2, amended: when the passes of worker [t] on a record fail [k] times
    with a [ValueError] and then succeed, the record is delivered after
    exactly [k] retries, each after a sleep of one second; in every state
    passed through before the delivery worker [t] owns the lock, the
    Dispatch Queue is as it was, and no other worker can take a step: the
    records in the queue are dequeued only after the delivery. *)
Theorem retry_delivers_while_owning_lock s t user u Es Eok body to :
  reachable s ->
  pcs s !! t = Some (WPipe user) -> heap s !! user = Some u ->
  Forall (fun E => exists m, pipeline (config s) E (values u) = Raise (ValueError m)) Es ->
  pipeline (config s) Eok (values u) = Ok (body, to) ->
  (exists s' msgs,
     run (retry_labels t Es ++ [LWorker t Eok]) s = Some s' /\
     length msgs = length Es /\
     trace s' = trace s ++ (msgs ≫= fun m => [EStderr ("Error: " +:+ m); ESleep 1])
                        ++ [ESent (twilio_number (config s)) body to] /\
     lock s' = None /\ pcs s' !! t = Some WTop /\
     to_respond_queue s' = to_respond_queue s) /\
  (forall n si,
     n < length (retry_labels t Es ++ [LWorker t Eok]) ->
     run (take n (retry_labels t Es ++ [LWorker t Eok])) s = Some si ->
     lock si = Some t /\ to_respond_queue si = to_respond_queue s /\
     forall t' E, t' <> t -> do_work t' E si = None).
Proof.
  intros Hreach Hpc Hu HEs Hok.
  pose proof (lock_inv_reachable s Hreach) as Hinv.
  assert (Hlt : t < length (pcs s)) by by eapply lookup_lt_Some.
  assert (Hown : lock s = Some t) by (apply (inv_owner s Hinv); eauto).
  split.
  - destruct (retry_events_shape _ _ _ HEs) as (msgs & Hlen & Hshape).
    eexists _, msgs. split.
    { rewrite run_app, (retry_run t Es s user u Hpc Hu HEs). cbn [mbind option_bind run step].
      rewrite (do_work_pass t Eok _ user u) by (cbn; assumption).
      cbn [config emit]. rewrite (inner_pass_Ok _ _ _ _ _ Hok). reflexivity. }
    split; [exact Hlen|].
    cbn [trace pcs to_respond_queue lock set_pc set_lock emit]. rewrite Hshape.
    split; [by rewrite app_assoc|]. split; [reflexivity|].
    split; [by apply list_lookup_insert_eq | reflexivity].
  - intros n si Hn Hrun. rewrite length_app in Hn. cbn [length] in Hn.
    rewrite take_app_le in Hrun by lia.
    destruct (retry_prefix t Es s user u n si Hpc Hu HEs Hrun)
      as ((_ & _ & _ & _ & Hq & Hl & _) & pc & Hin & Hp).
    split; [congruence|]. split; [exact Hq|].
    intros t' E Hne. apply (blocked_while_owned si t t'); [congruence|].
    intros pc' Hpc'. rewrite Hp, list_lookup_insert_ne in Hpc' by congruence.
    destruct (holds_lock pc') eqn:Hh; [|reflexivity].
    assert (lock s = Some t') by (apply (inv_owner s Hinv); eauto). congruence.
Qed.

Lemma retry_delivers_while_owning_lock_witness :
  (exists s',
     run (retry_labels 0 [ext_busy; ext_busy] ++ [LWorker 0 ext_ok]) st_working = Some s' /\
     lock s' = None /\ to_respond_queue s' = [1]) /\
  (forall si,
     run (take 3 (retry_labels 0 [ext_busy; ext_busy] ++ [LWorker 0 ext_ok])) st_working
       = Some si ->
     lock si = Some 0 /\ forall E, do_work 1 E si = None).
Proof.
  assert (Hreach : reachable st_working).
  { exists sample_config, 2, (dispatch_two ++ [LWorker 0 ext_ok; LWorker 0 ext_ok]).
    vm_compute. reflexivity. }
  destruct (retry_delivers_while_owning_lock st_working 0 0 alice_dispatched
              [ext_busy; ext_busy] ext_ok
              (VStr "Stay at home, rest, and take medication as necessary")
              (VStr "+15550001") Hreach)
    as [(s' & msgs & Hrun & _ & _ & Hl & _ & Hq) Hduring].
  { vm_compute. reflexivity. }
  { vm_compute. reflexivity. }
  { repeat constructor; exists "rejected"; vm_compute; reflexivity. }
  { vm_compute. reflexivity. }
  split.
  - exists s'. split; [exact Hrun|]. split; [exact Hl|].
    rewrite Hq. vm_compute. reflexivity.
  - intros si Hsi. destruct (Hduring 3 si) as (Hl3 & _ & Hb).
    + cbn. lia.
    + exact Hsi.
    + split; [exact Hl3|]. intros E. apply Hb. discriminate.
Defined.

(** ** Identities in the Dispatch Queue *)

Lemma omap_ext_in {A B} (f g : A -> option B) (l : list A) :
  (forall x, x ∈ l -> f x = g x) -> omap f l = omap g l.
Proof.
  induction l as [|x l IH]; intros H; [reflexivity|]. cbn [omap list_omap].
  rewrite (H x) by left. rewrite IH; [reflexivity|].
  intros y Hy. apply H. by right.
Qed.

(** A dispatching [verdict] run in one piece, for an identity that is not
    in the Dispatch Queue, keeps the identities in the queue distinct, and
    so do the steps of the workers. *)
Lemma dispatch_keeps_identities_distinct c code num s :
  known_code code = true -> lock s = None -> store_ok s ->
  NoDup (queue_ids s) -> num ∉ queue_ids s ->
  (exists user s2,
     verdict c code num s = Done verdict_html (set_users (fun m => delete num m) s2) /\
     to_respond_queue s2 = to_respond_queue s ++ [user] /\
     users s2 !! num = Some user /\
     users (set_users (fun m => delete num m) s2) !! num = None /\
     queue_ids (set_users (fun m => delete num m) s2) = queue_ids s ++ [num] /\
     NoDup (queue_ids (set_users (fun m => delete num m) s2))) /\
  (forall t E s1 s1',
     NoDup (queue_ids s1) -> do_work t E s1 = Some s1' -> NoDup (queue_ids s1')).
Proof.
  intros Hcode Hlock Hok Hnd Hnin. split.
  - destruct (known_code_instructions _ Hcode) as (text & flag & Hti).
    destruct (attach_disposition_ok code num (VStr text) (VBool flag)
                (set_session c empty_session s))
      as (user & s1 & Hatt & Hl & _ & _ & Hq & _ & _ & _ & _ & Hu & Hsame & Hus).
    { destruct Hok as [H1 H2]. split; [exact H1 | exact H2]. }
    destruct Hu as (u & Hu & Hid & _).
    destruct (notify_frame (set_to_respond_queue (fun q => deque.append q user) s1))
      as (_ & Hh & Hus' & _ & Hq' & _).
    exists user, (notify (set_to_respond_queue (fun q => deque.append q user) s1)).
    split.
    { eapply verdict_dispatch; [exact Hti | exact Hatt | rewrite Hl; exact Hlock]. }
    assert (Hids : queue_ids (set_users (fun m => delete num m)
                     (notify (set_to_respond_queue (fun q => deque.append q user) s1)))
                   = queue_ids s ++ [num]).
    { unfold queue_ids. cbn [heap to_respond_queue set_users]. rewrite Hh, Hq'.
      cbn [heap to_respond_queue set_to_respond_queue]. rewrite Hq.
      unfold deque.append. cbn [to_respond_queue set_session].
      rewrite omap_app. f_equal.
      - apply omap_ext_in. intros l Hin. apply Hsame.
        cbn [heap set_session]. by apply (ok_queue s Hok).
      - cbn [omap list_omap]. rewrite Hu. cbn. by rewrite Hid. }
    rewrite Hq', Hus'. cbn [to_respond_queue users set_to_respond_queue set_users].
    rewrite Hq. cbn [to_respond_queue set_session].
    split; [reflexivity|]. split; [exact Hus|].
    split; [apply lookup_delete_eq|]. split; [exact Hids|].
    rewrite Hids. apply NoDup_app. split; [exact Hnd|].
    split; [|apply NoDup_singleton].
    intros x Hx Hx'. apply list_elem_of_singleton in Hx' as ->. done.
  - intros t E s1 s1' Hnd1. unfold do_work.
    destruct (pcs s1 !! t) as [pc|]; [|discriminate]. cbn [mbind option_bind].
    destruct pc.
    + destruct (lock s1); [discriminate|]. by intros [= <-].
    + destruct (to_respond_queue s1) as [|user q] eqn:Hq; cbn [deque.popleft];
        intros [= <-]; [exact Hnd1|].
      unfold queue_ids in *. cbn [heap to_respond_queue set_pc set_to_respond_queue].
      rewrite Hq in Hnd1. cbn [omap list_omap] in Hnd1.
      destruct (uuid <$> heap s1 !! user); [|exact Hnd1].
      by apply NoDup_cons in Hnd1 as [_ ?].
    + destruct (heap s1 !! user); [|by intros [= <-]].
      destruct (inner_pass _ _ _); by intros [= <-].
    + by intros [= <-].
    + discriminate.
    + destruct (lock s1); [discriminate|]. by intros [= <-].
    + by intros [= <-].
Qed.

(** * Further properties of the handlers and of the worker *)

(** ** [get_triage_instructions] *)

(** X1: [get_triage_instructions] yields a disposition for exactly the nine
    keys of its table, compared as they are written (a missing form field
    yields none), and its two results are [None] together. *)
Theorem known_codes_exactly code :
  (known_code code = true <-> exists c, code = Some c /\ c ∈ known_codes) /\
  (is_None (get_triage_instructions code).1 = negb (known_code code)) /\
  (is_None (get_triage_instructions code).2 = negb (known_code code)).
Proof.
  split.
  - split.
    + unfold known_code. destruct code as [c|]; [|discriminate].
      intros H. apply bool_decide_eq_true in H as [v H].
      apply dict_get_eqb in H as (k & Hin & Hk). apply String.eqb_eq in Hk. subst k.
      exists c. split; [reflexivity|]. unfold triage_responses in Hin. unfold known_codes.
      repeat (apply elem_of_cons in Hin as [Hin|Hin];
              [injection Hin as -> _; set_solver|]).
      by apply elem_of_nil in Hin.
    + intros (c & -> & Hin). unfold known_codes in Hin.
      repeat (apply elem_of_cons in Hin as [->|Hin]; [vm_compute; reflexivity|]).
      by apply elem_of_nil in Hin.
  - destruct (known_code code) eqn:Hk.
    + destruct (known_code_instructions _ Hk) as (text & flag & ->). by split.
    + rewrite (unknown_code_instructions _ Hk). by split.
Qed.

(** ** [/triage] *)

(** X2: a reviewer who reloads [/triage] keeps the same patient: once the
    page has taken a record (with a phone number) from the head of the
    Intake Admission Queue into the session, calling it again returns the
    same page and changes nothing, whoever else is queued. *)
Theorem triaging_reload_keeps_patient c s user q u n :
  user_uuid (session_of s c) = None ->
  user_queue s = user :: q -> heap s !! user = Some u -> uuid u = Some n ->
  exists s1,
    triaging c s = Done (triage_html (Some (values u)) (Some n)) s1 /\
    user_queue s1 = q /\
    triaging c s1 = Done (triage_html (Some (values u)) (Some n)) s1.
Proof.
  intros Hs Hq Hu Hn. eexists. split.
  { rewrite (triaging_take c s user q u Hs Hq Hu). by rewrite Hn. }
  split; [reflexivity|].
  unfold triaging, mbind, M_bind, get, mret, M_ret. cbn beta iota.
  rewrite session_of_set. rewrite decide_True by reflexivity. cbn [user_uuid user_vals].
  rewrite bool_decide_eq_true_2 by eauto. rewrite orb_true_r. cbn beta iota.
  rewrite session_of_set. rewrite decide_True by reflexivity. reflexivity.
Qed.

Lemma triaging_reload_keeps_patient_witness :
  exists s1,
    triaging 3 st_pending =
      Done (triage_html (Some (values alice_record)) alice) s1 /\
    user_queue s1 = [1] /\
    triaging 3 s1 = Done (triage_html (Some (values alice_record)) alice) s1.
Proof.
  apply (triaging_reload_keeps_patient 3 st_pending 0 [1] alice_record "+15550001");
    vm_compute; reflexivity.
Defined.


(** X10: [/triage] takes at most the head of the Intake Admission Queue and
    touches nothing else of the shared state: no user object, not the
    repository, not the Dispatch Queue, and no worker is woken. *)
Theorem triaging_only_pops_head c s s' :
  handle (triaging c) s = Some s' ->
  (user_queue s' = user_queue s \/ exists user, user_queue s = user :: user_queue s') /\
  heap s' = heap s /\ users s' = users s /\ coord_eq s s'.
Proof.
  intros H. split; [|split; [|split]].
  - revert H. unfold handle, triaging, mbind, M_bind, get, modify, lift, mret, M_ret, deref.
    cbn beta iota. destruct (_ || _); [|intros [= <-]; by left].
    destruct (bool_decide _); [intros [= <-]; by left|].
    destruct (user_queue s) as [|user q] eqn:Hq; cbn [deque.popleft].
    + intros [= <-]. by left.
    + cbn [heap set_user_queue]. destruct (heap s !! user); intros [= <-]; right; by exists user.
  - revert H. unfold handle, triaging, mbind, M_bind, get, modify, lift, mret, M_ret, deref.
    cbn beta iota. destruct (_ || _); [|by intros [= <-]].
    destruct (bool_decide _); [by intros [= <-]|].
    destruct (deque.popleft (user_queue s)) as [[user q]|e]; [|by intros [= <-]].
    cbn [heap set_user_queue]. destruct (heap s !! user); by intros [= <-].
  - revert H. unfold handle, triaging, mbind, M_bind, get, modify, lift, mret, M_ret, deref.
    cbn beta iota. destruct (_ || _); [|by intros [= <-]].
    destruct (bool_decide _); [by intros [= <-]|].
    destruct (deque.popleft (user_queue s)) as [[user q]|e]; [|by intros [= <-]].
    cbn [heap set_user_queue]. destruct (heap s !! user); by intros [= <-].
  - unfold handle in H. pose proof (keeps_triaging c s) as Hk.
    destruct (triaging c s); [| |discriminate]; by injection H as <-.
Qed.

Lemma triaging_only_pops_head_witness :
  exists s',
    handle (triaging 3) st_pending = Some s' /\
    st_pending.(user_queue) = 0 :: user_queue s' /\
    heap s' = heap st_pending /\ to_respond_queue s' = [].
Proof.
  eexists. split; [vm_compute; reflexivity|].
  destruct (triaging_only_pops_head 3 st_pending
              (after [LTriaging 3] st_pending)) as (Hq & Hh & _ & Hc).
  { vm_compute. reflexivity. }
  split; [vm_compute; reflexivity|]. split; [exact Hh|].
  destruct Hc as (_ & _ & _ & _ & Hq' & _). exact Hq'.
Defined.

(** ** [/verdict] *)

(** X4: a verdict with a known code attaches exactly the four disposition
    fields (the phone number and code as submitted, the text and flag of the
    table) to the repository's record of the identity, keeping every other
    attribute the intake collected (a new record is made when the repository
    has none); that record is appended to the Dispatch Queue, the identity
    is then gone from the repository, and no other object, other identity
    or the Intake Admission Queue changes. *)
Theorem verdict_dispatch_attaches c code num s text flag :
  get_triage_instructions code = (VStr text, VBool flag) ->
  lock s = None -> store_ok s ->
  exists user s',
    verdict c code num s = Done verdict_html s' /\
    to_respond_queue s' = to_respond_queue s ++ [user] /\
    heap s' !! user =
      Some {| uuid := num;
              values := with_disposition (prior_values s num)
                          (of_form num) (of_form code) (VStr text) (VBool flag) |} /\
    (forall key, key ∉ ["phone_number"; "triage_code"; "triage_instructions"; "get_hospital"] ->
       forall u, heap s' !! user = Some u -> values u !! key = prior_values s num !! key) /\
    (forall l, l <> user -> heap s' !! l = heap s !! l) /\
    users s' !! num = None /\
    (forall k, k <> num -> users s' !! k = users s !! k) /\
    user_queue s' = user_queue s.
Proof.
  intros Hti Hlock Hok.
  assert (Hkeys : forall (vals : gmap string pyval) key a b c0 d,
            key ∉ ["phone_number"; "triage_code"; "triage_instructions"; "get_hospital"] ->
            with_disposition vals a b c0 d !! key = vals !! key).
  { intros vals key a b c0 d Hkey. unfold with_disposition.
    rewrite !lookup_insert_ne; [reflexivity|..]; intros <-; apply Hkey; set_solver. }
  destruct (users s !! num) as [l|] eqn:Hu.
  - destruct (ok_users s Hok _ _ Hu) as (u0 & Hl & Hid).
    pose proof (attach_disposition_known code num (VStr text) (VBool flag)
                  (set_session c empty_session s) l u0 Hu Hl) as Hatt.
    eexists l, _. split.
    { eapply verdict_dispatch; [exact Hti | exact Hatt | exact Hlock]. }
    cbn [to_respond_queue heap users user_queue set_users].
    match goal with |- context [notify ?x] =>
      destruct (notify_frame x) as (_ & -> & -> & -> & -> & _) end.
    cbn [to_respond_queue heap users user_queue set_to_respond_queue set_heap set_session].
    assert (Hprior : prior_values s num = values u0).
    { unfold prior_values. by rewrite Hu, Hl. }
    assert (Hnew : <[l := {| uuid := uuid u0;
                             values := with_disposition (values u0) (of_form num)
                                         (of_form code) (VStr text) (VBool flag) |}]> (heap s) !! l
                   = Some {| uuid := num;
                             values := with_disposition (prior_values s num) (of_form num)
                                         (of_form code) (VStr text) (VBool flag) |}).
    { rewrite (list_insert_lookup_Some _ _ _ _ Hl). by rewrite Hid, Hprior. }
    split; [reflexivity|]. split; [exact Hnew|]. split.
    { intros key Hkey u Hu'. rewrite Hnew in Hu'. injection Hu' as <-. cbn [values].
      by apply Hkeys. }
    split; [intros l' Hne; by apply list_lookup_insert_ne|].
    split; [apply lookup_delete_eq|]. split; [|reflexivity].
    intros k Hne. by apply lookup_delete_ne.
  - pose proof (attach_disposition_new code num (VStr text) (VBool flag)
                  (set_session c empty_session s) Hu) as Hatt.
    eexists (length (heap s)), _. split.
    { eapply verdict_dispatch; [exact Hti | exact Hatt | exact Hlock]. }
    cbn [to_respond_queue heap users user_queue set_users].
    match goal with |- context [notify ?x] =>
      destruct (notify_frame x) as (_ & -> & -> & -> & -> & _) end.
    cbn [to_respond_queue heap users user_queue set_to_respond_queue set_heap
         set_users set_session].
    assert (Hprior : prior_values s num = ∅).
    { unfold prior_values. by rewrite Hu. }
    assert (Hnew : (heap s ++ [{| uuid := num;
                                  values := with_disposition ∅ (of_form num)
                                              (of_form code) (VStr text) (VBool flag) |}])
                     !! length (heap s)
                   = Some {| uuid := num;
                             values := with_disposition (prior_values s num) (of_form num)
                                         (of_form code) (VStr text) (VBool flag) |}).
    { rewrite lookup_app_r by lia. rewrite Nat.sub_diag, Hprior. reflexivity. }
    split; [reflexivity|]. split; [exact Hnew|]. split.
    { intros key Hkey u Hu'. rewrite Hnew in Hu'. injection Hu' as <-. cbn [values].
      by apply Hkeys. }
    split.
    { intros l' Hne. destruct (decide (l' < length (heap s))) as [Hlt|Hge].
      - by apply lookup_app_l.
      - rewrite !lookup_ge_None_2; [reflexivity | lia |].
        rewrite length_app. cbn. lia. }
    split; [apply lookup_delete_eq|]. split; [|reflexivity].
    intros k Hne. rewrite lookup_delete_ne by congruence.
    by rewrite lookup_insert_ne by congruence.
Qed.

Lemma verdict_dispatch_attaches_witness :
  exists s',
    verdict 3 (Some "LEVEL 2") alice st_pending = Done verdict_html s' /\
    to_respond_queue s' = [0] /\
    (forall u, heap s' !! 0 = Some u ->
       values u !! "zip_code" = Some (VStr "02139")) /\
    users s' !! alice = None /\ users s' !! bob = Some 1.
Proof.
  destruct (verdict_dispatch_attaches 3 (Some "LEVEL 2") alice st_pending
              "Please seek Triage Level 2 assistance; you will be provided with a list of nearby hospitals/clinics:"
              true)
    as (user & s' & Hv & Hq & Hnew & Hkeep & _ & Hgone & Hothers & _).
  - vm_compute. reflexivity.
  - reflexivity.
  - split.
    + intros k l Hk. unfold st_pending in Hk. cbn [users] in Hk.
      apply lookup_insert_Some in Hk as [[<- <-]|[_ Hk]].
      { exists alice_record. split; reflexivity. }
      apply lookup_singleton_Some in Hk as [<- <-].
      exists bob_record. split; reflexivity.
    + intros l Hl. cbn in Hl. by apply elem_of_nil in Hl.
  - assert (Huser : user = 0).
    { assert (Hv0 : exists s0, verdict 3 (Some "LEVEL 2") alice st_pending
                      = Done verdict_html s0 /\ to_respond_queue s0 = [0])
        by (eexists; split; vm_compute; reflexivity).
      destruct Hv0 as (s0 & Hv0 & Hq0). rewrite Hv in Hv0. injection Hv0 as <-.
      rewrite Hq in Hq0. cbn in Hq0. by injection Hq0. }
    subst user. exists s'. split; [exact Hv|]. split; [exact Hq|].
    split.
    { intros u Hu. rewrite (Hkeep "zip_code") with (u := u); [| |exact Hu].
      - vm_compute. reflexivity.
      - intros Hin.
        repeat (apply elem_of_cons in Hin as [Hin|Hin]; [discriminate|]).
        by apply elem_of_nil in Hin. }
    split; [exact Hgone|]. rewrite Hothers by discriminate. vm_compute. reflexivity.
Defined.

(** X5: a verdict with an unknown code for an identity the repository has
    no record of raises [KeyError] at [user_model_repo.users[user_number]]:
    nothing is requeued, nothing is dispatched, no object changes and no
    worker is woken. *)
Theorem verdict_requeue_unknown_identity c code num s :
  known_code code = false -> users s !! num = None ->
  exists key s',
    verdict c code num s = Raised (KeyError key) s' /\
    user_queue s' = user_queue s /\ to_respond_queue s' = to_respond_queue s /\
    heap s' = heap s /\ users s' = users s /\ coord_eq s s'.
Proof.
  intros Hcode Hu. unfold verdict.
  rewrite (unknown_code_instructions _ Hcode). cbn [is_None].
  unfold mbind, M_bind, modify, users_getitem, mret, M_ret. cbn beta iota.
  cbn [users set_session]. rewrite Hu.
  eexists _, _. split; [reflexivity|]. by repeat split.
Qed.

Lemma verdict_requeue_unknown_identity_witness :
  exists key s',
    verdict 3 None (Some "+15550009") st_pending = Raised (KeyError key) s' /\
    user_queue s' = [0; 1] /\ to_respond_queue s' = [].
Proof.
  destruct (verdict_requeue_unknown_identity 3 None (Some "+15550009") st_pending)
    as (key & s' & Hv & Hq & Hd & _).
  - reflexivity.
  - vm_compute. reflexivity.
  - exists key, s'. split; [exact Hv|]. split; [exact Hq | exact Hd].
Defined.

(** X6: while a worker is running the follow-up pipeline on a record (the
    sleeps between retries included) a verdict with a known code cannot get
    past its [with work_available_condition]: the reviewer's request waits
    for the worker. *)
Theorem dispatch_waits_for_worker c code num s t pc :
  reachable s -> store_ok s ->
  pcs s !! t = Some pc -> in_pipeline pc = true ->
  known_code code = true ->
  verdict c code num s = Blocked /\ step (LVerdict c code num) s = None.
Proof.
  intros Hreach Hok Hpc Hin Hcode.
  pose proof (lock_inv_reachable s Hreach) as Hinv.
  assert (Hown : lock s = Some t).
  { apply (inv_owner s Hinv). exists pc. split; [exact Hpc | by destruct pc]. }
  destruct (known_code_instructions _ Hcode) as (text & flag & Hti).
  destruct (attach_disposition_ok code num (VStr text) (VBool flag)
              (set_session c empty_session s))
    as (user & s1 & Hatt & Hl & _).
  { destruct Hok as [H1 H2]. split; [exact H1 | exact H2]. }
  assert (Hb : verdict c code num s = Blocked).
  { eapply verdict_dispatch_blocked; [exact Hti | exact Hatt |].
    rewrite Hl. exact Hown. }
  split; [exact Hb|]. cbn [step]. unfold handle. by rewrite Hb.
Qed.

Lemma dispatch_waits_for_worker_witness :
  verdict 3 (Some "home") (Some "+15550009") st_working = Blocked /\
  step (LVerdict 3 (Some "home") (Some "+15550009")) st_working = None.
Proof.
  apply (dispatch_waits_for_worker 3 (Some "home") (Some "+15550009") st_working 0 (WPipe 0)).
  - exists sample_config, 2, (dispatch_two ++ [LWorker 0 ext_ok; LWorker 0 ext_ok]).
    vm_compute. reflexivity.
  - split.
    + intros k l Hk. exfalso.
      assert (Hempty : users st_working = ∅) by (vm_compute; reflexivity).
      rewrite Hempty, lookup_empty in Hk. discriminate.
    + intros l Hl.
      assert (Hq : to_respond_queue st_working = [1]) by (vm_compute; reflexivity).
      assert (Hlen : length (heap st_working) = 2) by (vm_compute; reflexivity).
      rewrite Hq in Hl. apply list_elem_of_singleton in Hl as ->. rewrite Hlen. lia.
  - vm_compute. reflexivity.
  - reflexivity.
  - vm_compute. reflexivity.
Defined.

(** ** The worker pool *)

(** X7: at any time at most one worker is inside
    [with work_available_condition] (between taking the lock and the end of
    the pipeline or the call of [wait()]): two workers never run the
    pipeline at the same time. *)
Theorem one_worker_inside_with_block s t1 t2 pc1 pc2 :
  reachable s ->
  pcs s !! t1 = Some pc1 -> holds_lock pc1 = true ->
  pcs s !! t2 = Some pc2 -> holds_lock pc2 = true ->
  t1 = t2.
Proof.
  intros Hreach H1 Hh1 H2 Hh2.
  pose proof (lock_inv_reachable s Hreach) as Hinv.
  assert (lock s = Some t1) by (apply (inv_owner s Hinv); eauto).
  assert (lock s = Some t2) by (apply (inv_owner s Hinv); eauto).
  congruence.
Qed.

Lemma one_worker_inside_with_block_witness :
  pcs st_working !! 0 = Some (WPipe 0) /\ holds_lock (WPipe 0) = true /\ 0 = 0.
Proof.
  split; [vm_compute; reflexivity|]. split; [reflexivity|].
  apply (one_worker_inside_with_block st_working 0 0 (WPipe 0) (WPipe 0)).
  - exists sample_config, 2, (dispatch_two ++ [LWorker 0 ext_ok; LWorker 0 ext_ok]).
    vm_compute. reflexivity.
  - vm_compute. reflexivity.
  - reflexivity.
  - vm_compute. reflexivity.
  - reflexivity.
Defined.

(** X8: a step of a worker never puts a record in a queue and never touches
    the handlers' data: the Intake Admission Queue, the repository, the user
    objects and the sessions are as before, the Dispatch Queue is as before
    or has lost its head, and the output only grows. *)
Theorem worker_never_enqueues t E s s' :
  do_work t E s = Some s' ->
  user_queue s' = user_queue s /\ users s' = users s /\ heap s' = heap s /\
  sessions s' = sessions s /\ config s' = config s /\
  (to_respond_queue s' = to_respond_queue s \/
   exists user, to_respond_queue s = user :: to_respond_queue s') /\
  exists evs, trace s' = trace s ++ evs.
Proof.
  unfold do_work. destruct (pcs s !! t) as [pc|]; [|discriminate].
  cbn [mbind option_bind].
  assert (Hnil : trace s = trace s ++ []) by by rewrite app_nil_r.
  destruct pc.
  - destruct (lock s); [discriminate|]. intros [= <-].
    repeat split; try reflexivity; [by left | by exists []].
  - destruct (to_respond_queue s) as [|user q] eqn:Hq; cbn [deque.popleft]; intros [= <-].
    + repeat split; try reflexivity; [by left | by exists []].
    + repeat split; try reflexivity; [right; by exists user | by exists []].
  - destruct (heap s !! user) as [u|].
    + destruct (inner_pass (config s) E (values u)) as [evs|evs|e]; intros [= <-];
        repeat split; try reflexivity; try (by left);
        first [by exists evs | by exists []].
    + intros [= <-]. repeat split; try reflexivity; [by left | by exists []].
  - intros [= <-]. repeat split; try reflexivity; [by left | by exists [ESleep 1]].
  - discriminate.
  - destruct (lock s); [discriminate|]. intros [= <-].
    repeat split; try reflexivity; [by left | by exists []].
  - intros [= <-]. repeat split; try reflexivity; [by left | by exists []].
Qed.

Lemma worker_never_enqueues_witness :
  exists s',
    do_work 0 ext_busy st_working = Some s' /\
    user_queue s' = user_queue st_working /\
    heap s' = heap st_working /\ users s' = users st_working.
Proof.
  eexists. split; [vm_compute; reflexivity|].
  destruct (worker_never_enqueues 0 ext_busy st_working
              (after [LWorker 0 ext_busy] st_working))
    as (Hq & Hu & Hh & _).
  { vm_compute. reflexivity. }
  split; [exact Hq|]. split; [exact Hh | exact Hu].
Defined.

Lemma do_work_acquire t E s :
  pcs s !! t = Some WTop -> lock s = None ->
  do_work t E s = Some (set_pc t WLocked (set_lock (Some t) s)).
Proof. intros Hpc Hl. unfold do_work. rewrite Hpc. cbn. by rewrite Hl. Qed.

Lemma do_work_empty t E s :
  pcs s !! t = Some WLocked -> to_respond_queue s = [] ->
  do_work t E s = Some (wait t s).
Proof. intros Hpc Hq. unfold do_work. rewrite Hpc. cbn. by rewrite Hq. Qed.

Lemma do_work_pop t E s user q :
  pcs s !! t = Some WLocked -> to_respond_queue s = user :: q ->
  do_work t E s = Some (set_pc t (WPipe user) (set_to_respond_queue (fun _ => q) s)).
Proof. intros Hpc Hq. unfold do_work. rewrite Hpc. cbn. by rewrite Hq. Qed.

Lemma do_work_reacquire t E s :
  pcs s !! t = Some WNotified -> lock s = None ->
  do_work t E s = Some (set_pc t WResumed (set_lock (Some t) s)).
Proof. intros Hpc Hl. unfold do_work. rewrite Hpc. cbn. by rewrite Hl. Qed.

Lemma do_work_resume t E s :
  pcs s !! t = Some WResumed ->
  do_work t E s = Some (set_pc t WTop (set_lock None s)).
Proof. intros Hpc. unfold do_work. rewrite Hpc. reflexivity. Qed.

(** X13: started on an empty Dispatch Queue, every worker takes the lock,
    finds nothing to pop, and suspends itself in [wait()] with the lock
    released; after that no worker can take a step: the idle pool does not
    poll. *)
Theorem idle_pool_is_suspended cfg n E :
  run (start_workers n E) (init_state cfg n) = Some (idle_pool cfg n 0) /\
  lock (idle_pool cfg n 0) = None /\
  waiters (idle_pool cfg n 0) = seq 0 n /\
  (forall t, t < n -> pcs (idle_pool cfg n 0) !! t = Some WWait) /\
  (forall t E', do_work t E' (idle_pool cfg n 0) = None).
Proof.
  assert (Hgen : forall m k,
            run (seq k m ≫= (fun t => [LWorker t E; LWorker t E])) (idle_pool cfg k m)
            = Some (idle_pool cfg (k + m) 0)).
  { induction m as [|m IH]; intros k.
    - cbn. by rewrite Nat.add_0_r.
    - cbn [seq mbind list_bind app]. cbn [run step].
      assert (Hk : (replicate k WWait ++ replicate (S m) WTop) !! k = Some WTop).
      { rewrite lookup_app_r by (rewrite length_replicate; lia).
        rewrite length_replicate, Nat.sub_diag. reflexivity. }
      rewrite (do_work_acquire k E (idle_pool cfg k (S m)) Hk eq_refl).
      rewrite do_work_empty;
        [| cbn [pcs set_pc set_lock idle_pool]; apply list_lookup_insert_eq;
           rewrite length_app, !length_replicate; cbn; lia
         | reflexivity].
      replace (wait k (set_pc k WLocked (set_lock (Some k) (idle_pool cfg k (S m)))))
        with (idle_pool cfg (S k) m).
      { rewrite IH. f_equal. f_equal. lia. }
      unfold wait, set_pc, set_waiters, set_lock, idle_pool.
      cbn -[seq replicate]. f_equal.
      + by rewrite seq_S.
      + rewrite list_insert_insert_eq.
        rewrite insert_app_r_alt by (rewrite length_replicate; lia).
        rewrite length_replicate, Nat.sub_diag.
        rewrite replicate_S_end, <- app_assoc. reflexivity. }
  split.
  { specialize (Hgen n 0). unfold start_workers.
    replace (init_state cfg n) with (idle_pool cfg 0 n) by reflexivity.
    rewrite Hgen. reflexivity. }
  split; [reflexivity|]. split; [reflexivity|].
  assert (Hpcs : forall t pc, pcs (idle_pool cfg n 0) !! t = Some pc -> pc = WWait).
  { intros t pc. cbn [pcs idle_pool]. rewrite app_nil_r.
    intros H. by apply lookup_replicate in H as [-> _]. }
  split.
  - intros t Ht. cbn [pcs idle_pool]. rewrite app_nil_r.
    by apply lookup_replicate_2.
  - intros t E'. unfold do_work.
    destruct (pcs (idle_pool cfg n 0) !! t) as [pc|] eqn:Hpc; [|reflexivity].
    rewrite (Hpcs _ _ Hpc). reflexivity.
Qed.

(** ** [/sms] *)

(** X9: [/sms] never removes a record from the Intake Admission Queue, not
    even on RESTART: the queue is as before or one record longer at its
    tail, and the record appended is the one the repository then holds for
    the sender; the Dispatch Queue, the lock and the workers are untouched;
    a request without a body changes nothing. *)
Theorem sms_only_appends engine From Body s s' :
  handle (sms engine From Body) s = Some s' ->
  (user_queue s' = user_queue s \/
   exists user, user_queue s' = user_queue s ++ [user] /\ users s' !! From = Some user) /\
  coord_eq s s' /\
  (Body = None -> s' = s).
Proof.
  intros H. split; [|split].
  - revert H. unfold handle, sms.
    destruct Body as [b|]; [|intros [= <-]; by left].
    unfold mbind, M_bind, mret, M_ret, users_delete, modify, get_response, users_getitem.
    cbn beta iota.
    destruct (String.eqb (upper (strip b)) "RESTART"); cbn beta iota;
      (match goal with |- context [engine ?x ?y ?z] =>
         destruct (engine x y z) as [[[h m] [response cont]]|e] end;
       cbn beta iota; [|intros [= <-]; by left];
       destruct cont; cbn [negb]; cbn beta iota; [intros [= <-]; by left|];
       cbn [users set_users set_heap];
       destruct (m !! From) as [l|] eqn:Hm; intros [= <-];
       [right; exists l; split; [reflexivity | exact Hm] | by left]).
  - unfold handle in H. pose proof (keeps_sms engine From Body s) as Hk.
    destruct (sms engine From Body s); [| |discriminate]; by injection H as <-.
  - intros ->. by injection H as <-.
Qed.

Lemma sms_only_appends_witness :
  exists s',
    handle (sms intake_done (Some "+15550003") (Some " restart ")) st_pending = Some s' /\
    user_queue s' = [0; 1; 2] /\ to_respond_queue s' = [].
Proof.
  eexists. split; [vm_compute; reflexivity|].
  destruct (sms_only_appends intake_done (Some "+15550003") (Some " restart ") st_pending
              (after [LSms intake_done (Some "+15550003") (Some " restart ")] st_pending))
    as (_ & Hc & _).
  { vm_compute. reflexivity. }
  split; [vm_compute; reflexivity|].
  destruct Hc as (_ & _ & _ & _ & Hq & _). exact Hq.
Defined.

(** ** The facility list of the message *)

Lemma hospital_lines_raises hosp e :
  hospital_lines hosp = Raise e -> exists key, e = KeyError key.
Proof.
  unfold hospital_lines, hosp_attr, getitem, mbind, result_bind, rbind.
  intros H. repeat case_match; simplify_eq; eauto.
Qed.

Lemma append_hospitals_blocks t sel blocks :
  Forall2 (fun h b => hospital_lines h = Ok b) sel blocks ->
  append_hospitals (VStr t) sel = Ok (VStr (foldl String.append t blocks)).
Proof.
  intros H. revert t. induction H as [|h b sel blocks Hh _ IH]; intros t.
  - reflexivity.
  - cbn [append_hospitals foldl]. rewrite Hh.
    unfold mbind, result_bind, rbind. cbn [str_iadd]. apply IH.
Qed.

Lemma append_hospitals_missing t sel h key :
  h ∈ sel -> hospital_lines h = Raise (KeyError key) ->
  exists key', append_hospitals (VStr t) sel = Raise (KeyError key').
Proof.
  intros Hin Hh. revert t. induction sel as [|h0 sel IH]; intros t.
  - by apply elem_of_nil in Hin.
  - cbn [append_hospitals]. unfold mbind, result_bind, rbind.
    destruct (hospital_lines h0) as [text|e] eqn:H0.
    + cbn [str_iadd]. apply elem_of_cons in Hin as [->|Hin]; [congruence|].
      by apply IH.
    + apply hospital_lines_raises in H0 as [key' ->]. eauto.
Qed.

(** The pipeline of a record that needs the facility lookup, up to the
    point where the selected facilities are printed. *)
Lemma pipeline_lookup cfg E vals text g zip tc hs w sel :
  vals !! "triage_instructions" = Some (VStr text) ->
  vals !! "get_hospital" = Some g -> truthy g = true ->
  vals !! "zip_code" = Some zip -> vals !! "triage_code" = Some tc ->
  get_hospital_records_within_distance E zip (zip_code_radius cfg) = Ok hs ->
  get_match_weights E zip tc hs = Ok w ->
  make_hospital_choice E hs w = Ok sel ->
  pipeline cfg E vals =
  (instructions ← append_hospitals (VStr (text +:+ choose_header)) sel;
   to ← getitem vals "phone_number";
   _ ← messages_create E (twilio_number cfg) instructions to;
   Ok (instructions, to)).
Proof.
  intros Hti Hgh Htr Hzip Htc Hhs Hw Hsel. unfold pipeline.
  rewrite (getitem_Some _ _ _ Hti), (getitem_Some _ _ _ Hgh).
  unfold mbind at 1 2, result_bind at 1 2, rbind at 1 2. rewrite Htr.
  rewrite (getitem_Some _ _ _ Hzip), (getitem_Some _ _ _ Htc).
  unfold mbind, result_bind, rbind. rewrite Hhs, Hw, Hsel. reflexivity.
Qed.

(** X12: for a record that needs the facility lookup, the message handed to
    the notifier is the resolution text, the line asking to choose a care
    centre, and then one block per selected facility in the order of the
    selection: name, address, "city, state  zip", each block ended by an
    empty line. *)
Theorem facility_list_message cfg E vals text g zip tc to hs w sel blocks :
  vals !! "triage_instructions" = Some (VStr text) ->
  vals !! "get_hospital" = Some g -> truthy g = true ->
  vals !! "zip_code" = Some zip -> vals !! "triage_code" = Some tc ->
  vals !! "phone_number" = Some to ->
  get_hospital_records_within_distance E zip (zip_code_radius cfg) = Ok hs ->
  get_match_weights E zip tc hs = Ok w ->
  make_hospital_choice E hs w = Ok sel ->
  Forall2 (fun h b => hospital_lines h = Ok b) sel blocks ->
  pipeline cfg E vals =
    (_ ← messages_create E (twilio_number cfg)
           (VStr (foldl String.append (text +:+ choose_header) blocks)) to;
     Ok (VStr (foldl String.append (text +:+ choose_header) blocks), to)) /\
  (forall name address city state zipc,
     hospital_lines (facility name address city state zipc) =
     Ok ((name +:+ " " +:+ nl +:+ " ") +:+ (address +:+ " " +:+ nl +:+ " ") +:+
         (city +:+ ", ") +:+ (state +:+ "  ") +:+ (zipc +:+ nl +:+ nl))).
Proof.
  intros Hti Hgh Htr Hzip Htc Hto Hhs Hw Hsel Hblocks. split.
  - rewrite (pipeline_lookup cfg E vals text g zip tc hs w sel) by assumption.
    rewrite (append_hospitals_blocks _ _ _ Hblocks).
    unfold mbind at 1 2, result_bind at 1 2, rbind at 1 2.
    rewrite (getitem_Some _ _ _ Hto). reflexivity.
  - intros name address city state zipc.
    vm_compute. reflexivity.
Qed.

Lemma facility_list_message_witness :
  pipeline sample_config
    {| get_hospital_records_within_distance := fun _ _ => Ok [];
       get_match_weights := fun _ _ _ => Ok [];
       make_hospital_choice := fun _ _ =>
         Ok [facility "Mercy Clinic" "1 Main St" "Springfield" "MA" "01101"];
       messages_create := fun _ _ _ => Ok tt |}
    (values bob_dispatched) =
  Ok (VStr (("Please seek Triage Level 1 assistance; you will be provided with a list of nearby hospitals/clinics:"
             +:+ choose_header)
            +:+ (("Mercy Clinic" +:+ " " +:+ nl +:+ " ") +:+
                 ("1 Main St" +:+ " " +:+ nl +:+ " ") +:+
                 ("Springfield" +:+ ", ") +:+ ("MA" +:+ "  ") +:+
                 ("01101" +:+ nl +:+ nl))),
      VStr "+15550002").
Proof.
  etransitivity.
  - apply (facility_list_message sample_config _ (values bob_dispatched)
      "Please seek Triage Level 1 assistance; you will be provided with a list of nearby hospitals/clinics:"
      (VBool true) (VStr "10001") (VStr "LEVEL 1") (VStr "+15550002") [] []
      [facility "Mercy Clinic" "1 Main St" "Springfield" "MA" "01101"]
      [("Mercy Clinic" +:+ " " +:+ nl +:+ " ") +:+
       ("1 Main St" +:+ " " +:+ nl +:+ " ") +:+
       ("Springfield" +:+ ", ") +:+ ("MA" +:+ "  ") +:+ ("01101" +:+ nl +:+ nl)]);
      first [vm_compute; reflexivity | repeat constructor].
  - reflexivity.
Defined.

(** X11: when one of the selected facilities lacks the key "attributes" or
    one of NAME, ADDRESS, CITY, STATE, ZIP, the pass raises [KeyError]
    whatever the notifier would answer: no message is sent, and since the
    clause for [KeyError] raises in turn, the pass ends in the bare
    [except]. *)
Theorem facility_missing_attribute cfg E vals text g zip tc hs w sel h key :
  vals !! "triage_instructions" = Some (VStr text) ->
  vals !! "get_hospital" = Some g -> truthy g = true ->
  vals !! "zip_code" = Some zip -> vals !! "triage_code" = Some tc ->
  get_hospital_records_within_distance E zip (zip_code_radius cfg) = Ok hs ->
  get_match_weights E zip tc hs = Ok w ->
  make_hospital_choice E hs w = Ok sel ->
  h ∈ sel -> hospital_lines h = Raise (KeyError key) ->
  (exists key', pipeline cfg E vals = Raise (KeyError key')) /\
  exists m, inner_pass cfg E vals = PassRaise (TypeError m).
Proof.
  intros Hti Hgh Htr Hzip Htc Hhs Hw Hsel Hin Hh.
  destruct (append_hospitals_missing (text +:+ choose_header) sel h key Hin Hh)
    as [key' Hraise].
  assert (Hp : pipeline cfg E vals = Raise (KeyError key')).
  { rewrite (pipeline_lookup cfg E vals text g zip tc hs w sel) by assumption.
    rewrite Hraise. reflexivity. }
  split; [eauto|]. unfold inner_pass. rewrite Hp. cbn. eauto.
Qed.

Lemma facility_missing_attribute_witness :
  (exists key',
     pipeline sample_config
       {| get_hospital_records_within_distance := fun _ _ => Ok [];
          get_match_weights := fun _ _ _ => Ok [];
          make_hospital_choice := fun _ _ =>
            Ok [facility "Mercy Clinic" "1 Main St" "Springfield" "MA" "01101";
                {[ "attributes" := {[ "NAME" := "Unnamed" ]} ]}];
          messages_create := fun _ _ _ => Ok tt |}
       (values bob_dispatched) = Raise (KeyError key')) /\
  exists m,
    inner_pass sample_config
      {| get_hospital_records_within_distance := fun _ _ => Ok [];
         get_match_weights := fun _ _ _ => Ok [];
         make_hospital_choice := fun _ _ =>
           Ok [facility "Mercy Clinic" "1 Main St" "Springfield" "MA" "01101";
               {[ "attributes" := {[ "NAME" := "Unnamed" ]} ]}];
         messages_create := fun _ _ _ => Ok tt |}
      (values bob_dispatched) = PassRaise (TypeError m).
Proof.
  apply (facility_missing_attribute sample_config _ (values bob_dispatched)
    "Please seek Triage Level 1 assistance; you will be provided with a list of nearby hospitals/clinics:"
    (VBool true) (VStr "10001") (VStr "LEVEL 1") [] []
    [facility "Mercy Clinic" "1 Main St" "Springfield" "MA" "01101";
     {[ "attributes" := {[ "NAME" := "Unnamed" ]} ]}]
    {[ "attributes" := {[ "NAME" := "Unnamed" ]} ]} "ADDRESS");
    try (vm_compute; reflexivity).
  right. left.
Defined.

(** ** From [notify()] to the message *)

(** A notified worker re-acquires the lock, leaves its [with] block, comes
    back to the top, takes the lock and the head of the queue, and runs one
    successful pass. *)
Lemma notified_worker_runs t E s user q u evs :
  pcs s !! t = Some WNotified -> lock s = None ->
  to_respond_queue s = user :: q -> heap s !! user = Some u ->
  inner_pass (config s) E (values u) = PassBreak evs ->
  exists s',
    run (replicate 5 (LWorker t E)) s = Some s' /\
    trace s' = trace s ++ evs /\ to_respond_queue s' = q /\ lock s' = None /\
    pcs s' = <[t := WTop]> (pcs s) /\ waiters s' = waiters s.
Proof.
  intros Hpc Hl Hq Hu Hpass.
  assert (Hlt : t < length (pcs s)) by by eapply lookup_lt_Some.
  cbn [replicate run step].
  rewrite (do_work_reacquire t E s Hpc Hl).
  rewrite do_work_resume
    by (cbn [pcs set_pc set_lock]; apply list_lookup_insert_eq; exact Hlt).
  rewrite do_work_acquire;
    [| cbn [pcs set_pc set_lock]; apply list_lookup_insert_eq;
       rewrite ?length_insert; exact Hlt
     | reflexivity].
  rewrite (do_work_pop t E _ user q);
    [| cbn [pcs set_pc set_lock]; apply list_lookup_insert_eq;
       rewrite ?length_insert; exact Hlt
     | exact Hq].
  rewrite (do_work_pass t E _ user u);
    [| cbn [pcs set_pc set_lock set_to_respond_queue]; apply list_lookup_insert_eq;
       rewrite ?length_insert; exact Hlt
     | exact Hu].
  cbn [config set_pc set_lock set_to_respond_queue]. rewrite Hpass.
  eexists. split; [reflexivity|].
  cbn [trace to_respond_queue lock pcs waiters set_pc set_lock set_to_respond_queue emit].
  repeat (split; [reflexivity|]). split; [|reflexivity].
  by rewrite !list_insert_insert_eq.
Qed.

(** X14: the hand-off from a reviewer to a suspended worker.  With the
    Dispatch Queue empty, the lock free and worker [t] the oldest waiter, a
    verdict whose code needs no facility lookup wakes [t] and only [t]; [t]
    then re-acquires the lock, takes the record and, the notifier
    accepting, sends exactly the resolution text of that code to the
    submitted number; the queue is empty again and the lock free. *)
Theorem notified_worker_delivers c code num s t ws E text :
  reachable s -> store_ok s ->
  lock s = None -> waiters s = t :: ws -> to_respond_queue s = [] ->
  get_triage_instructions code = (VStr text, VBool false) ->
  messages_create E (twilio_number (config s)) (VStr text) (of_form num) = Ok tt ->
  exists s1 s',
    step (LVerdict c code num) s = Some s1 /\
    pcs s1 = <[t := WNotified]> (pcs s) /\ waiters s1 = ws /\
    run (replicate 5 (LWorker t E)) s1 = Some s' /\
    trace s' = trace s ++ [ESent (twilio_number (config s)) (VStr text) (of_form num)] /\
    to_respond_queue s' = [] /\ lock s' = None /\
    pcs s' = <[t := WTop]> (pcs s) /\ waiters s' = ws.
Proof.
  intros Hreach Hok Hlock Hw Hq Hti Hsend.
  pose proof (lock_inv_reachable s Hreach) as Hinv.
  assert (Hpc : pcs s !! t = Some WWait).
  { apply (inv_waiters s Hinv). rewrite Hw. left. }
  assert (Hlt : t < length (pcs s)) by by eapply lookup_lt_Some.
  destruct (attach_disposition_ok code num (VStr text) (VBool false)
              (set_session c empty_session s))
    as (user & s1a & Hatt & Hl1 & Hw1 & Hp1 & Hq1 & _ & Htr1 & _ & _ & Hu & _ & _).
  { destruct Hok as [H1 H2]. split; [exact H1 | exact H2]. }
  cbn [lock waiters pcs to_respond_queue trace set_session] in Hl1, Hw1, Hp1, Hq1, Htr1.
  assert (Hcfg : config s1a = config s).
  { pose proof (keeps_attach_disposition code num (VStr text) (VBool false)
                  (set_session c empty_session s)) as Hk.
    rewrite Hatt in Hk. by destruct Hk as (Hk & _). }
  destruct Hu as (u & Hu & _ & vals & Hvals).
  set (S1 := set_users (fun m => delete num m)
               (set_pc t WNotified
                  (set_waiters (fun _ => ws)
                     (set_to_respond_queue (fun q => deque.append q user) s1a)))).
  assert (HS1 : verdict c code num s = Done verdict_html S1).
  { rewrite (verdict_dispatch c code num s text false user s1a Hti Hatt)
      by (rewrite Hl1; exact Hlock).
    unfold notify. cbn [waiters set_to_respond_queue]. rewrite Hw1, Hw. reflexivity. }
  assert (Hpass : inner_pass (config S1) E (values u)
                  = PassBreak [ESent (twilio_number (config s)) (VStr text) (of_form num)]).
  { cbn [config S1 set_users set_pc set_waiters set_to_respond_queue]. rewrite Hcfg.
    apply inner_pass_Ok. rewrite Hvals, pipeline_no_lookup, Hsend. reflexivity. }
  destruct (notified_worker_runs t E S1 user [] u
              [ESent (twilio_number (config s)) (VStr text) (of_form num)])
    as (s' & Hrun & Htr & Hq' & Hl' & Hp' & Hw').
  { cbn [pcs S1 set_users set_pc]. apply list_lookup_insert_eq.
    cbn [pcs set_waiters set_to_respond_queue]. by rewrite Hp1. }
  { cbn [lock S1 set_users set_pc set_waiters set_to_respond_queue]. congruence. }
  { cbn [to_respond_queue S1 set_users set_pc set_waiters set_to_respond_queue].
    by rewrite Hq1, Hq. }
  { exact Hu. }
  { exact Hpass. }
  exists S1, s'. split.
  { cbn [step]. unfold handle. by rewrite HS1. }
  cbn [pcs waiters trace S1 set_users set_pc set_waiters set_to_respond_queue]
    in Htr, Hp', Hw' |- *.
  rewrite Hp1 in Hp' |- *. rewrite Htr1 in Htr.
  split; [reflexivity|]. split; [reflexivity|]. split; [exact Hrun|].
  split; [exact Htr|]. split; [exact Hq'|]. split; [exact Hl'|].
  split; [|exact Hw']. by rewrite Hp', list_insert_insert_eq.
Qed.

Lemma notified_worker_delivers_witness :
  exists s1 s',
    step (LVerdict 0 (Some "checkinlater8") alice)
      (idle_pool sample_config 2 0) = Some s1 /\
    pcs s1 = [WNotified; WWait] /\ waiters s1 = [1] /\
    run (replicate 5 (LWorker 0 ext_ok)) s1 = Some s' /\
    trace s' = [ESent "+15550100" (VStr "Please stay put and text back in 8 hours")
                  (VStr "+15550001")] /\
    to_respond_queue s' = [] /\ lock s' = None /\
    pcs s' = [WTop; WWait] /\ waiters s' = [1].
Proof.
  apply (notified_worker_delivers 0 (Some "checkinlater8") alice
           (idle_pool sample_config 2 0) 0 [1] ext_ok
           "Please stay put and text back in 8 hours");
    try (vm_compute; reflexivity).
  - exists sample_config, 2, (start_workers 2 ext_ok). vm_compute. reflexivity.
  - split.
    + intros k l Hk. cbn in Hk. rewrite lookup_empty in Hk. discriminate.
    + intros l Hl. cbn in Hl. by apply elem_of_nil in Hl.
Defined.

(** * Requests interleaved with other threads *)

(** The handlers in one piece are the request threads run with no other
    thread in between. *)
Lemma verdict_uninterrupted c code num s :
  uninterrupted 3 (RVerdict c code num) s =
  match verdict c code num s with
  | Done p s' => Done (RFinished p) s'
  | Raised e s' => Raised e s'
  | Blocked => Blocked
  end.
Proof.
  cbn [uninterrupted request_step]. unfold verdict_begin, verdict.
  destruct (get_triage_instructions code) as [ti gh].
  destruct (is_None ti).
  - unfold mbind, M_bind, modify, users_getitem, mret, M_ret. cbn beta iota.
    cbn [users set_session]. destruct (users s !! num); reflexivity.
  - unfold mbind, M_bind, modify, mret, M_ret. cbn beta iota.
    destruct (attach_disposition code num ti gh (set_session c empty_session s))
      as [user s1|e s1|]; cbn beta iota; try reflexivity.
    cbn [uninterrupted request_step].
    unfold enqueue, users_delete, modify, mbind, M_bind, mret, M_ret.
    destruct (lock s1); reflexivity.
Qed.


Lemma do_work_keeps_identities_distinct t E s s' :
  NoDup (queue_ids s) -> do_work t E s = Some s' -> NoDup (queue_ids s').
Proof.
  intros Hnd. unfold do_work.
  destruct (pcs s !! t) as [pc|]; [|discriminate]. cbn [mbind option_bind].
  destruct pc.
  - destruct (lock s); [discriminate|]. by intros [= <-].
  - destruct (to_respond_queue s) as [|user q] eqn:Hq; cbn [deque.popleft];
      intros [= <-]; [exact Hnd|].
    unfold queue_ids in *. cbn [heap to_respond_queue set_pc set_to_respond_queue].
    rewrite Hq in Hnd. cbn [omap list_omap] in Hnd.
    destruct (uuid <$> heap s !! user); [|exact Hnd].
    by apply NoDup_cons in Hnd as [_ ?].
  - destruct (heap s !! user); [|by intros [= <-]].
    destruct (inner_pass _ _ _); by intros [= <-].
  - by intros [= <-].
  - discriminate.
  - destruct (lock s); [discriminate|]. by intros [= <-].
  - by intros [= <-].
Qed.

(** ** The order of append and delete in [verdict] *)

(** C4, as stated, fails.  The producer does not remove the identity before
    it appends: after the [with] block of a verdict for Alice has run, her
    record is in the Dispatch Queue, the repository still holds her
    identity, and the request stands before the delete of line 110.  And
    identities are not unique in the queue: of two verdicts for Alice in
    flight, the second finds the record the first has not deleted yet, and
    both append it; two verdicts one after the other append two records of
    the same identity. *)
Lemma verdict_deletes_after_append :
  (exists sv,
     server_run [SArrive (RVerdict 0 (Some "home") alice); SRequest 0; SRequest 0]
       server_init = Some sv /\
     requests sv = [RVerdictDelete alice] /\
     to_respond_queue (shared sv) = [0] /\ users (shared sv) !! alice = Some 0) /\
  (exists sv,
     server_run [SArrive (RVerdict 0 (Some "home") alice);
                 SArrive (RVerdict 1 (Some "LEVEL 1") alice);
                 SRequest 0; SRequest 1; SRequest 0; SRequest 1; SRequest 0; SRequest 1]
       server_init = Some sv /\
     requests sv = [RFinished verdict_html; RFinished verdict_html] /\
     to_respond_queue (shared sv) = [0; 0] /\
     queue_ids (shared sv) = [alice; alice]) /\
  (exists s,
     run [LVerdict 0 (Some "home") alice; LVerdict 1 (Some "LEVEL 1") alice]
       (init_state sample_config 2) = Some s /\
     to_respond_queue s = [0; 1] /\ queue_ids s = [alice; alice]) /\
  ~ NoDup [alice; alice].
Proof.
  split; [|split; [|split]].
  - eexists. split; [vm_compute; reflexivity|]. repeat split; vm_compute; reflexivity.
  - eexists. split; [vm_compute; reflexivity|]. repeat split; vm_compute; reflexivity.
  - eexists. split; [vm_compute; reflexivity|]. split; vm_compute; reflexivity.
  - intros Hnd. apply NoDup_cons in Hnd as [Hnin _]. apply Hnin. left.
Qed.

(** C4, amended: the producer (the verdict step) appends the record to the
    Dispatch Queue first, in its [with] block, which it enters only when no
    worker owns the lock and which leaves the pending-intake record store as
    it is (the identity is still there); it removes the identity from the
    store afterwards, at line 110, which leaves the queue as it is.  A
    verdict run with no other thread in between, for an identity that is not
    in the Dispatch Queue, leaves the identities in the queue distinct, and
    the steps of the workers keep them distinct. *)
Theorem verdict_appends_then_deletes c code num s :
  known_code code = true -> store_ok s ->
  exists user s1,
    request_step (RVerdict c code num) s = Done (RVerdictWith user num) s1 /\
    to_respond_queue s1 = to_respond_queue s /\
    users s1 !! num = Some user /\
    (exists u, heap s1 !! user = Some u /\ uuid u = num) /\
    (forall s2 t, lock s2 = Some t ->
       request_step (RVerdictWith user num) s2 = Blocked) /\
    (forall s2, lock s2 = None ->
       exists s3,
         request_step (RVerdictWith user num) s2 = Done (RVerdictDelete num) s3 /\
         to_respond_queue s3 = to_respond_queue s2 ++ [user] /\
         users s3 = users s2 /\ heap s3 = heap s2) /\
    (forall s3,
       exists s4,
         request_step (RVerdictDelete num) s3 = Done (RFinished verdict_html) s4 /\
         users s4 = delete num (users s3) /\ users s4 !! num = None /\
         to_respond_queue s4 = to_respond_queue s3 /\ heap s4 = heap s3) /\
    (lock s = None -> NoDup (queue_ids s) -> num ∉ queue_ids s ->
       exists s',
         uninterrupted 3 (RVerdict c code num) s = Done (RFinished verdict_html) s' /\
         to_respond_queue s' = to_respond_queue s ++ [user] /\
         users s' !! num = None /\
         queue_ids s' = queue_ids s ++ [num] /\ NoDup (queue_ids s')) /\
    (forall t E sa sb,
       NoDup (queue_ids sa) -> do_work t E sa = Some sb -> NoDup (queue_ids sb)).
Proof.
  intros Hcode Hok.
  destruct (known_code_instructions _ Hcode) as (text & flag & Hti).
  destruct (attach_disposition_ok code num (VStr text) (VBool flag)
              (set_session c empty_session s))
    as (user & s1 & Hatt & Hl & _ & _ & Hq & _ & _ & _ & _ & Hu & _ & Hus).
  { destruct Hok as [H1 H2]. split; [exact H1 | exact H2]. }
  destruct Hu as (u & Hu & Hid & _).
  exists user, s1. split.
  { cbn [request_step]. unfold verdict_begin. rewrite Hti. cbn [is_None].
    unfold mbind, M_bind, modify, mret, M_ret. cbn beta iota. by rewrite Hatt. }
  split; [exact Hq|]. split; [exact Hus|]. split; [eauto|]. split.
  { intros s2 t Hl2. cbn [request_step]. unfold enqueue, mbind, M_bind.
    by rewrite Hl2. }
  split.
  { intros s2 Hl2. eexists. split.
    { cbn [request_step]. unfold enqueue, mbind, M_bind, mret, M_ret.
      rewrite Hl2. reflexivity. }
    destruct (notify_frame (set_to_respond_queue (fun q => deque.append q user) s2))
      as (_ & Hh & Hu2 & _ & Hq2 & _).
    rewrite Hq2, Hu2, Hh. repeat split. }
  split.
  { intros s3. eexists. split; [reflexivity|].
    cbn [users to_respond_queue heap set_users].
    split; [reflexivity|]. split; [apply lookup_delete_eq|]. split; reflexivity. }
  split; [|intros t E sa sb; apply do_work_keeps_identities_distinct].
  intros Hlock Hnd Hnin.
  destruct (dispatch_keeps_identities_distinct c code num s Hcode Hlock Hok Hnd Hnin)
    as [(user' & s2 & Hv & Hq2 & _ & Hgone & Hids & Hnd') _].
  exists (set_users (fun m => delete num m) s2).
  rewrite verdict_uninterrupted, Hv. split; [reflexivity|].
  assert (Huser : user' = user).
  { pose proof (verdict_dispatch c code num s text flag user s1 Hti Hatt
                  (eq_trans Hl Hlock)) as Hv'.
    rewrite Hv in Hv'.
    apply (f_equal (fun o => match o with
                             | Done _ x => to_respond_queue x
                             | _ => []
                             end)) in Hv'.
    cbn [to_respond_queue set_users] in Hv'.
    destruct (notify_frame (set_to_respond_queue (fun q => deque.append q user) s1))
      as (_ & _ & _ & _ & Hq3 & _).
    rewrite Hq3, Hq2 in Hv'. cbn [to_respond_queue set_to_respond_queue] in Hv'.
    rewrite Hq in Hv'. cbn [to_respond_queue set_session] in Hv'.
    unfold deque.append in Hv'. by apply app_inv_head in Hv' as [= ->]. }
  subst user'. cbn [to_respond_queue set_users]. split; [exact Hq2|].
  split; [exact Hgone|]. split; [exact Hids | exact Hnd'].
Qed.

Lemma verdict_appends_then_deletes_witness :
  exists user s1 s3 s',
    request_step (RVerdict 1 (Some "LEVEL 1") bob) st_one_dispatched
      = Done (RVerdictWith user bob) s1 /\
    request_step (RVerdictWith user bob) s1 = Done (RVerdictDelete bob) s3 /\
    to_respond_queue s3 = to_respond_queue s1 ++ [user] /\ users s3 = users s1 /\
    users s1 !! bob = Some user /\
    uninterrupted 3 (RVerdict 1 (Some "LEVEL 1") bob) st_one_dispatched
      = Done (RFinished verdict_html) s' /\
    queue_ids s' = [alice; bob].
Proof.
  assert (Hids : queue_ids st_one_dispatched = [alice]) by (vm_compute; reflexivity).
  destruct (verdict_appends_then_deletes 1 (Some "LEVEL 1") bob st_one_dispatched)
    as (user & s1 & Hbegin & Hq1 & Hus & _ & _ & Hwith & _ & Hone & _).
  - vm_compute. reflexivity.
  - split.
    + intros k l Hk. exfalso.
      assert (Hempty : users st_one_dispatched = ∅) by (vm_compute; reflexivity).
      rewrite Hempty, lookup_empty in Hk. discriminate.
    + intros l Hl.
      assert (Hq : to_respond_queue st_one_dispatched = [0]) by (vm_compute; reflexivity).
      assert (Hlen : length (heap st_one_dispatched) = 1) by (vm_compute; reflexivity).
      rewrite Hq in Hl. apply list_elem_of_singleton in Hl as ->. rewrite Hlen. lia.
  - assert (Hl1 : lock s1 = None).
    { pose proof (keeps_attach_disposition (Some "LEVEL 1") bob
                    (VStr "Please seek Triage Level 1 assistance; you will be provided with a list of nearby hospitals/clinics:")
                    (VBool true) (set_session 1 empty_session st_one_dispatched)) as Hk.
      assert (Hb : request_step (RVerdict 1 (Some "LEVEL 1") bob) st_one_dispatched
                   = match attach_disposition (Some "LEVEL 1") bob
                             (VStr "Please seek Triage Level 1 assistance; you will be provided with a list of nearby hospitals/clinics:")
                             (VBool true) (set_session 1 empty_session st_one_dispatched) with
                     | Done a s0 => Done (RVerdictWith a bob) s0
                     | Raised e s0 => Raised e s0
                     | Blocked => Blocked
                     end) by reflexivity.
      rewrite Hbegin in Hb.
      destruct (attach_disposition _ _ _ _ _) as [a s0|e s0|]; [|discriminate..].
      injection Hb as _ ->. destruct Hk as (_ & Hk & _). rewrite Hk. reflexivity. }
    destruct (Hwith s1 Hl1) as (s3 & Hstep & Hq3 & Hu3 & _).
    destruct Hone as (s' & Hrun & _ & _ & Hids' & _).
    + reflexivity.
    + rewrite Hids. apply NoDup_singleton.
    + rewrite Hids. intros Hin. apply list_elem_of_singleton in Hin. discriminate.
    + exists user, s1, s3, s'. repeat (split; [assumption|]).
      rewrite Hids', Hids. reflexivity.
Defined.

(** ** The check and the pop of [/triage] *)

